(** * cmu-courseapi-flask: query construction and result shaping

    A shallow embedding of [common/utils.py] and [common/search.py].

    Python values are modelled as follows.
    - [str] is [string]; its characters are the code points below 256.
    - [int] is [Z].
    - a [dict] whose keys are looked up is a [gmap string _]; a [dict] that
      is built, iterated or returned is an association list in insertion
      order.
    - an exception is a value of [exn]; a function that may raise returns
      [result].
    - [datetime.date], [datetime.time] and [datetime.datetime] are records
      of their fields, with the arithmetic of CPython's [datetime] module.
    - a query object of [elasticsearch_dsl] is the expression that builds
      it: [Q name params], and [QAnd] / [QOr] for the operators [&] / [|].
    The search backend, the time-zone database, the clock, the parsers
    [int] and [arrow.get], and the values of the [config] and [Message]
    modules are fields of the record [Env]. What the code prints when
    [config.settings.DEBUG] is set is left out. *)

From Stdlib Require Import ZArith List String Ascii Bool Lia DecimalString.
From stdpp Require Import base gmap strings.

Import ListNotations.
Set Warnings "-register-all".
Local Open Scope string_scope.
Local Open Scope Z_scope.

(** ** Exceptions *)

Inductive exn : Type :=
| KeyError
| IndexError
| TypeError
| AttributeError
| OverflowError
| AssertionError
| BackendError.

Inductive result (A : Type) : Type :=
| Ok (a : A)
| Raise (e : exn).
Arguments Ok {A} a.
Arguments Raise {A} e.

Definition bind {A B : Type} (r : result A) (k : A -> result B) : result B :=
  match r with
  | Ok a => k a
  | Raise e => Raise e
  end.

Notation "'let*' x ':=' c 'in' k" := (bind c (fun x => k))
  (at level 10, x name, c at level 100, k at level 200).
Notation "'let*' ' p ':=' c 'in' k" := (bind c (fun 'p => k))
  (at level 10, p strict pattern, c at level 100, k at level 200).

Definition is_ok {A : Type} (r : result A) : bool :=
  match r with Ok _ => true | Raise _ => false end.

(** ** Strings *)

(** [str(n)] for an [int]. *)
Definition py_str_int (n : Z) : string := NilZero.string_of_int (Z.to_int n).

(** [s[n:]] for [0 <= n]. *)
Fixpoint slice_from (n : nat) (s : string) : string :=
  match n, s with
  | O, _ => s
  | S n', String _ s' => slice_from n' s'
  | S _, EmptyString => EmptyString
  end.

Definition is_digit (c : ascii) : bool :=
  let n := nat_of_ascii c in (48 <=? n)%nat && (n <=? 57)%nat.

Definition is_lower (c : ascii) : bool :=
  let n := nat_of_ascii c in (97 <=? n)%nat && (n <=? 122)%nat.

Definition upper_char (c : ascii) : ascii :=
  if is_lower c then ascii_of_nat (nat_of_ascii c - 32) else c.

(** [s.upper()], on the letters a to z. *)
Fixpoint upper (s : string) : string :=
  match s with
  | EmptyString => EmptyString
  | String c s' => String (upper_char c) (upper s')
  end.

(** ** Calendar (CPython's [datetime]) *)

Record date : Type := MkDate { year : Z; month : Z; day : Z }.
Record time : Type := MkTime { hour : Z; minute : Z; second : Z; microsecond : Z }.
Record datetime : Type := DateTime { dt_date : date; dt_time : time }.

Definition MINYEAR : Z := 1.
Definition MAXYEAR : Z := 9999.
Definition MAXORDINAL : Z := 3652059.

Definition is_leap (y : Z) : bool :=
  (y mod 4 =? 0) && (negb (y mod 100 =? 0) || (y mod 400 =? 0)).

Definition days_in_month (y m : Z) : Z :=
  if m =? 2 then (if is_leap y then 29 else 28)
  else if (m =? 4) || (m =? 6) || (m =? 9) || (m =? 11) then 30
  else 31.

Definition days_before_year (y : Z) : Z :=
  let y1 := y - 1 in y1 * 365 + y1 / 4 - y1 / 100 + y1 / 400.

Definition DAYS_BEFORE_MONTH (m : Z) : Z :=
  nth (Z.to_nat m) [0; 0; 31; 59; 90; 120; 151; 181; 212; 243; 273; 304; 334] 0.

Definition days_before_month (y m : Z) : Z :=
  DAYS_BEFORE_MONTH m + (if (2 <? m) && is_leap y then 1 else 0).

Definition ymd2ord (y m d : Z) : Z :=
  days_before_year y + days_before_month y m + d.

Definition toordinal (d : date) : Z := ymd2ord (year d) (month d) (day d).

(** The dates [datetime.date] can hold. *)
Definition valid_date (d : date) : bool :=
  (MINYEAR <=? year d) && (year d <=? MAXYEAR) &&
  (1 <=? month d) && (month d <=? 12) &&
  (1 <=? day d) && (day d <=? days_in_month (year d) (month d)).

Definition valid_time (t : time) : bool :=
  (0 <=? hour t) && (hour t <? 24) && (0 <=? minute t) && (minute t <? 60) &&
  (0 <=? second t) && (second t <? 60) &&
  (0 <=? microsecond t) && (microsecond t <? 1000000).

Definition valid_datetime (dt : datetime) : bool :=
  valid_date (dt_date dt) && valid_time (dt_time dt).

(** Comparison of dates: by year, then month, then day. *)
Definition date_lt (a b : date) : bool :=
  (year a <? year b) ||
  ((year a =? year b) &&
   ((month a <? month b) || ((month a =? month b) && (day a <? day b)))).

Definition date_le (a b : date) : bool := negb (date_lt b a).

Definition ord2ymd (n0 : Z) : date :=
  let n := n0 - 1 in
  let n400 := n / 146097 in
  let n := n mod 146097 in
  let n100 := n / 36524 in
  let n := n mod 36524 in
  let n4 := n / 1461 in
  let n := n mod 1461 in
  let n1 := n / 365 in
  let n := n mod 365 in
  let y := n400 * 400 + 1 + n100 * 100 + n4 * 4 + n1 in
  if (n1 =? 4) || (n100 =? 4) then MkDate (y - 1) 12 31
  else
    let leapyear := (n1 =? 3) && (negb (n4 =? 24) || (n100 =? 3)) in
    let m := Z.shiftr (n + 50) 5 in
    let preceding :=
      DAYS_BEFORE_MONTH m + (if (2 <? m) && leapyear then 1 else 0) in
    if n <? preceding then
      let m' := m - 1 in
      let preceding' :=
        preceding -
        (nth (Z.to_nat m') [0; 31; 28; 31; 30; 31; 30; 31; 31; 30; 31; 30; 31] 0 +
         (if (m' =? 2) && leapyear then 1 else 0)) in
      MkDate y m' (n - preceding' + 1)
    else MkDate y m (n - preceding + 1).

(** [date.isoweekday()]: Monday is 1 and Sunday is 7. *)
Definition isoweekday (d : date) : Z :=
  let r := toordinal d mod 7 in if r =? 0 then 7 else r.

(** [dt + datetime.timedelta(minutes=n)]. *)
Definition datetime_add_minutes (dt : datetime) (n : Z) : result datetime :=
  let t := dt_time dt in
  let secs := hour t * 3600 + minute t * 60 + second t + n * 60 in
  let days := toordinal (dt_date dt) + secs / 86400 in
  let rem := secs mod 86400 in
  if (0 <? days) && (days <=? MAXORDINAL) then
    Ok (DateTime (ord2ymd days)
                 (MkTime (rem / 3600) ((rem mod 3600) / 60) ((rem mod 3600) mod 60)
                       (microsecond t)))
  else Raise OverflowError.

Definition two_digits (n : Z) : string :=
  if n <? 10 then "0" +:+ py_str_int n else py_str_int n.

(** [t.strftime("%I:%M%p")] in the C locale. *)
Definition strftime_IMp (t : time) : string :=
  let h12 := if hour t mod 12 =? 0 then 12 else hour t mod 12 in
  two_digits h12 +:+ ":" +:+ two_digits (minute t) +:+
  (if hour t <? 12 then "AM" else "PM").

(** ** [common/utils.py] *)

(** The argument of [get_mini] and of the semester functions: a
    [datetime.date] or a [datetime.datetime]. *)
Inductive date_arg : Type :=
| ADate (d : date)
| ADateTime (dt : datetime).

Definition arg_year (a : date_arg) : Z :=
  match a with
  | ADate d => year d
  | ADateTime dt => year (dt_date dt)
  end.

Definition arg_date (a : date_arg) : date :=
  match a with
  | ADate d => d
  | ADateTime dt => dt_date dt
  end.

Definition get_mini (today : date) (current_date : option date_arg) : Z :=
  let current_date :=
    match current_date with
    | None => today
    | Some (ADateTime dt) => dt_date dt
    | Some (ADate d) => d
    end in
  let year := year current_date in
  if date_lt (MkDate year 8 20) current_date && date_le current_date (MkDate year 10 15)
  then 1
  else if date_lt (MkDate year 10 15) current_date && date_le current_date (MkDate year 12 31)
  then 2
  else if date_le (MkDate year 1 1) current_date && date_le current_date (MkDate year 3 15)
  then 3
  else if date_lt (MkDate year 3 15) current_date && date_le current_date (MkDate year 5 15)
  then 4
  else if date_lt (MkDate year 5 15) current_date && date_le current_date (MkDate year 7 1)
  then 5
  else if date_lt (MkDate year 7 1) current_date && date_le current_date (MkDate year 8 20)
  then 6
  else 0.

Definition get_semester_short_from_date (today : date) (date : date_arg) : string :=
  let mini := get_mini today (Some date) in
  let semester :=
    if (1 <=? mini) && (mini <=? 2) then "f"
    else if (3 <=? mini) && (mini <=? 4) then "s"
    else if mini =? 5 then "m1"
    else "m2" in
  semester +:+ slice_from 2 (py_str_int (arg_year date)).

Definition get_semester_from_date (today : date) (date : date_arg) : string :=
  let mini := get_mini today (Some date) in
  let semester :=
    if (1 <=? mini) && (mini <=? 2) then "Fall"
    else if (3 <=? mini) && (mini <=? 4) then "Spring"
    else if mini =? 5 then "Summer One"
    else "Summer Two" in
  semester +:+ " " +:+ py_str_int (arg_year date).

(** ** Python values, queries and backend responses *)

(** An [arrow.Arrow]: wall-clock fields and the name of its time zone. *)
Record Arrow : Type := MkArrow { arrow_datetime : datetime; arrow_tz : string }.

Inductive pyval : Type :=
| VNone
| VStr (s : string)
| VInt (n : Z)
| VArrow (a : Arrow)
| VList (l : list pyval)
| VDict (d : list (string * pyval))
| VObject (repr : string).

Abbreviation pydict := (list (string * pyval)).

Fixpoint dict_get {A : Type} (k : string) (d : list (string * A)) : option A :=
  match d with
  | [] => None
  | (k', v) :: d' => if String.eqb k k' then Some v else dict_get k d'
  end.

(** [d[k] = v]: an existing key keeps its place, a new key goes last. *)
Fixpoint dict_set {A : Type} (k : string) (v : A) (d : list (string * A))
  : list (string * A) :=
  match d with
  | [] => [(k, v)]
  | (k', v') :: d' =>
      if String.eqb k k' then (k', v) :: d' else (k', v') :: dict_set k v d'
  end.

Definition dict_keys {A : Type} (d : list (string * A)) : list string := map fst d.

(** A query object, as the expression that builds it: [Q name params] is
    [Q('name', p1=v1, ...)] with the keyword names as written, [QAnd a b]
    is [a & b] and [QOr a b] is [a | b]. *)
Inductive Query : Type :=
| Q (name : string) (params : list (string * param))
| QAnd (a b : Query)
| QOr (a b : Query)
with param : Type :=
| PVal (v : pyval)
| PQuery (q : Query)
| PQueries (qs : list Query).

(** [Q()], the query that matches everything. *)
Definition Q0 : Query := Q "match_all" [].

Record Hit : Type := MkHit { hit_to_dict : pydict }.

(** The object [Search.execute()] returns. *)
Record Response : Type := MkResponse {
  resp_hits : list Hit;
  hits_total : Z;
  resp_to_dict : pydict
}.

(** What [Searcher.fetch] returns: a response object, or the [info] of the
    exception it caught, which is any Python value. *)
Inductive response : Type :=
| RResponse (r : Response)
| RValue (v : pyval).

Record search_request : Type := MkRequest {
  sr_index : option string;
  sr_doc_type : option string;
  sr_query : Query;
  sr_size : Z;
  sr_sort : list string
}.

(** What [Search.execute()] does: return, or raise one of the three
    exceptions [fetch] names (with the exception's [info]), or raise
    anything else. *)
Inductive backend_outcome : Type :=
| Executed (r : Response)
| RaisedNotFoundError (info : pyval)
| RaisedRequestError (info : pyval)
| RaisedTransportError (info : pyval)
| RaisedOther.

(** ** The environment of the module *)

Record Env : Type := MkEnv {
  (** [config.course.ES_COURSE_INDEX_PREFIX], as [utils] imports it *)
  course_ES_COURSE_INDEX_PREFIX : string;
  (** [config.es_config.ES_COURSE_INDEX_PREFIX], as [search] imports it *)
  ES_COURSE_INDEX_PREFIX : string;
  ES_FCE_INDEX : string;
  SPAN_LOWER_LIMIT : Z;
  SPAN_UPPER_LIMIT : Z;
  (** [Message.SPAN_PARSE_FAIL] and the like *)
  SPAN_PARSE_FAIL : pyval;
  DATETIME_PARSE_FAIL : pyval;
  EMPTY_SEARCH : pyval;
  (** [datetime.datetime.today()]; [datetime.date.today()] is its date *)
  datetime_today : datetime;
  (** [arrow.now()] *)
  arrow_now : Arrow;
  (** [arrow.get(s)]; [None] when it raises *)
  arrow_get : string -> option Arrow;
  (** [a.to(tz)] *)
  arrow_to : string -> Arrow -> result Arrow;
  (** [int(s)]; [None] when it raises *)
  py_int : string -> option Z;
  (** [Search(...).execute()] *)
  es_execute : search_request -> backend_outcome
}.

Definition date_today (E : Env) : date := dt_date (datetime_today E).

Definition get_course_index_from_date (E : Env) (date : date_arg) : string :=
  course_ES_COURSE_INDEX_PREFIX E +:+ get_semester_short_from_date (date_today E) date.

Definition get_current_course_index (E : Env) : string :=
  get_course_index_from_date E (ADate (date_today E)).

(** ** Regular expressions of [search.py] *)

Definition newline : ascii := ascii_of_nat 10.

(** [$] matches at the end of the string and before a final newline. *)
Definition at_end (s : string) : bool :=
  match s with
  | EmptyString => true
  | String c EmptyString => Ascii.eqb c newline
  | _ => false
  end.

(** [re.match('^(f|s|m1|m2)\d{2}$', value)] *)
Definition match_semester (value : string) : bool :=
  match value with
  | String a (String b (String c rest)) =>
      ((Ascii.eqb a "f" || Ascii.eqb a "s") && is_digit b && is_digit c && at_end rest)
      ||
      (Ascii.eqb a "m" && (Ascii.eqb b "1" || Ascii.eqb b "2") && is_digit c &&
       match rest with
       | String d rest' => is_digit d && at_end rest'
       | EmptyString => false
       end)
  | _ => false
  end.

(** [re.search("^\d\d-\d\d\d$", courseid)] *)
Definition match_courseid (courseid : string) : bool :=
  match courseid with
  | String a (String b (String c (String d (String e (String f rest))))) =>
      is_digit a && is_digit b && Ascii.eqb c "-" &&
      is_digit d && is_digit e && is_digit f && at_end rest
  | _ => false
  end.

(** ** Searchers *)

Abbreviation raw_query_t := (gmap string (list pyval)).

(** The attributes [__init__] sets. [_index] is what the [index] property
    returns. *)
Record Searcher : Type := MkSearcher {
  raw_query : raw_query_t;
  _index : option string;
  size : Z;
  doc_type : option string;
  sort : option (list string)
}.

(** [l[0]] *)
Definition subscript0 {A : Type} (l : list A) : result A :=
  match l with
  | x :: _ => Ok x
  | [] => Raise IndexError
  end.

(** [d[k][0]] for a key that is present. *)
Definition first_of (rq : raw_query_t) (k : string) : result pyval :=
  match rq !! k with
  | Some l => subscript0 l
  | None => Raise KeyError
  end.

(** The [index] setter of [Searcher] and of [FCESearcher]. *)
Definition Searcher_set_index (value : option string) : option string := value.

Definition FCESearcher_init (raw_query : raw_query_t) (index : option string)
  (size : Z) (sort : option (list string)) : Searcher :=
  MkSearcher raw_query (Searcher_set_index index) size (Some "fce") sort.

(** The [index] setter of [CourseSearcher]. *)
Definition CourseSearcher_set_index (E : Env) (value : option string) : option string :=
  match value with
  | None => Some (ES_COURSE_INDEX_PREFIX E +:+ "*")
  | Some value =>
      if String.eqb value "current" then Some (get_current_course_index E)
      else if match_semester value then Some (ES_COURSE_INDEX_PREFIX E +:+ value)
      else Some value
  end.

Definition CourseSearcher_init (E : Env) (raw_query : raw_query_t)
  (index : option string) (size : Z) : Searcher :=
  MkSearcher raw_query (CourseSearcher_set_index E index) size (Some "course") None.

(** [Searcher.generate_query] *)
Definition Searcher_generate_query (self : Searcher) : result Query := Ok Q0.

Definition FCESearcher_generate_query (self : Searcher) : result Query :=
  let raw_query := raw_query self in
  let query := Q0 in
  let* query :=
    if bool_decide (is_Some (raw_query !! "courseid")) then
      let* courseid := first_of raw_query "courseid" in
      Ok (QAnd query (Q "term" [("courseid", PVal courseid)]))
    else Ok query in
  let* query :=
    if bool_decide (is_Some (raw_query !! "instructor")) then
      let* instructor := first_of raw_query "instructor" in
      Ok (QAnd query
            (Q "match" [("instructor",
                         PVal (VDict [("query", instructor); ("operator", VStr "and")]))]))
    else Ok query in
  Ok query.

(** [" ".join(l)] *)
Fixpoint join_space (l : list pyval) : result string :=
  match l with
  | [] => Ok EmptyString
  | [VStr s] => Ok s
  | VStr s :: l' => let* r := join_space l' in Ok (s +:+ " " +:+ r)
  | _ :: _ => Raise TypeError
  end.

(** [v.upper()] *)
Definition py_upper (v : pyval) : result pyval :=
  match v with
  | VStr s => Ok (VStr (upper s))
  | _ => Raise AttributeError
  end.

(** [v.to('America/New_York')] *)
Definition py_to (E : Env) (tz : string) (v : pyval) : result Arrow :=
  match v with
  | VArrow a => arrow_to E tz a
  | _ => Raise AttributeError
  end.

(** [datetime.timedelta(minutes=v)], as a number of minutes. *)
Definition py_minutes (v : pyval) : result Z :=
  match v with
  | VInt n => Ok n
  | _ => Raise TypeError
  end.

(** The clauses on the course itself: [text], or [name] and [desc]. *)
Definition text_clauses (raw_query : raw_query_t) (query : Query) : result Query :=
  if bool_decide (is_Some (raw_query !! "text")) then
    let* text := first_of raw_query "text" in
    let text_query :=
      Q "bool" [("should", PQueries [Q "match" [("name", PVal text)];
                                     Q "match" [("desc", PVal text)]])] in
    Ok (QAnd query text_query)
  else
    let* query :=
      if bool_decide (is_Some (raw_query !! "name")) then
        let* name := first_of raw_query "name" in
        let name_query := Q "bool" [("must", PQuery (Q "match" [("name", PVal name)]))] in
        Ok (QAnd query name_query)
      else Ok query in
    if bool_decide (is_Some (raw_query !! "desc")) then
      let* desc := first_of raw_query "desc" in
      let desc_query := Q "bool" [("must", PQuery (Q "match" [("desc", PVal desc)]))] in
      Ok (QAnd query desc_query)
    else Ok query.

Definition courseid_clause (E : Env) (self : Searcher) (query : Query) : result Query :=
  let raw_query := raw_query self in
  if bool_decide (is_Some (raw_query !! "courseid")) then
    let* courseid := first_of raw_query "courseid" in
    let id_query :=
      match _index self with
      | None =>
          let current_semester :=
            get_semester_from_date (date_today E) (ADateTime (datetime_today E)) in
          Q "bool" [("must", PQuery (Q "term" [("id", PVal courseid)]));
                    ("should", PQuery (Q "match" [("semester", PVal (VStr current_semester))]))]
      | Some _ => Q "term" [("id", PVal courseid)]
      end in
    Ok (QAnd query id_query)
  else Ok query.

(** [lec_name_query] and [sec_name_query] *)
Definition name_queries (raw_query : raw_query_t) : result (Query * Query) :=
  if bool_decide (is_Some (raw_query !! "instructor")) then
    let* instructor :=
      match raw_query !! "instructor" with
      | Some l => join_space l
      | None => Raise KeyError
      end in
    let _query_obj := [("query", VStr instructor); ("operator", VStr "and")] in
    let _query_obj :=
      if bool_decide (is_Some (raw_query !! "instructor_fuzzy"))
      then dict_set "fuzziness" (VStr "AUTO") _query_obj
      else _query_obj in
    Ok (Q "match" [("lectures__instructors", PVal (VDict _query_obj))],
        Q "match" [("sections__instructors", PVal (VDict _query_obj))])
  else Ok (Q0, Q0).

(** The [bool] query on the meeting times under [path] ([lectures] or
    [sections]). *)
Definition time_query (path : string) (day : Z) (shifted_time time : string) : Query :=
  let _times_begin_query := VDict [("lte", VStr shifted_time); ("format", VStr "hh:mma")] in
  let _times_end_query := VDict [("gt", VStr time); ("format", VStr "hh:mma")] in
  Q "bool" [("must", PQueries [Q "match" [(path +:+ "__times__days", PVal (VInt day))];
                               Q "range" [(path +:+ "__times__begin", PVal _times_begin_query)];
                               Q "range" [(path +:+ "__times__end", PVal _times_end_query)]])].

Abbreviation nested_dict := (list (string * Query)).

(** [lec_nested_queries] and [sec_nested_queries], in insertion order. The
    keys are distinct, so each assignment adds an entry at the end. *)
Definition nested_queries (E : Env) (raw_query : raw_query_t)
  : result (nested_dict * nested_dict) :=
  let lec_nested_queries : nested_dict := [] in
  let sec_nested_queries : nested_dict := [] in
  let* '(lec_nested_queries, sec_nested_queries) :=
    if bool_decide (is_Some (raw_query !! "building")) then
      let* b := first_of raw_query "building" in
      let* building := py_upper b in
      let lec_building_query := Q "match" [("lectures__times__building", PVal building)] in
      let sec_building_query := Q "match" [("sections__times__building", PVal building)] in
      Ok ((lec_nested_queries ++ [("lec_building_query", lec_building_query)])%list,
          (sec_nested_queries ++ [("sec_building_query", sec_building_query)])%list)
    else Ok (lec_nested_queries, sec_nested_queries) in
  let* '(lec_nested_queries, sec_nested_queries) :=
    if bool_decide (is_Some (raw_query !! "room")) then
      let* r := first_of raw_query "room" in
      let* room := py_upper r in
      let lec_room_query := Q "match" [("lectures__times__room", PVal room)] in
      let sec_room_query := Q "match" [("sections__times__room", PVal room)] in
      Ok ((lec_nested_queries ++ [("lec_room_query", lec_room_query)])%list,
          (sec_nested_queries ++ [("sec_room_query", sec_room_query)])%list)
    else Ok (lec_nested_queries, sec_nested_queries) in
  if bool_decide (is_Some (raw_query !! "datetime")) then
    let* dt0 := first_of raw_query "datetime" in
    let* date_time := py_to E "America/New_York" dt0 in
    let day := isoweekday (dt_date (arrow_datetime date_time)) mod 7 in
    let time := strftime_IMp (dt_time (arrow_datetime date_time)) in
    let* span := first_of raw_query "timespan" in
    let* delta_time := py_minutes span in
    let* shifted := datetime_add_minutes (arrow_datetime date_time) delta_time in
    let shifted_time := strftime_IMp (dt_time shifted) in
    let lec_time_query := time_query "lectures" day shifted_time time in
    let sec_time_query := time_query "sections" day shifted_time time in
    Ok ((lec_nested_queries ++ [("lec_time_query", lec_time_query)])%list,
        (sec_nested_queries ++ [("sec_time_query", sec_time_query)])%list)
  else Ok (lec_nested_queries, sec_nested_queries).

(** The loop over [d.items()]; [_lec_temp] starts as [Q()], which is not
    [None], so every value is joined with [&=]. *)
Definition combine_all (d : nested_dict) : Query :=
  fold_left (fun temp kv => QAnd temp (snd kv)) d Q0.

(** [combined_lec_query] and [combined_sec_query] *)
Definition combined_query (path : string) (temp name_query : Query) : Query :=
  Q "nested" [("query", PQuery (QAnd (Q "nested" [("query", PQuery temp);
                                                   ("path", PVal (VStr (path +:+ ".times")))])
                                     name_query));
              ("path", PVal (VStr path));
              ("inner_hits", PVal (VDict []))].

Definition CourseSearcher_generate_query (E : Env) (self : Searcher) : result Query :=
  let raw_query := raw_query self in
  let query := Q0 in
  let* query := text_clauses raw_query query in
  let* query := courseid_clause E self query in
  let* '(lec_name_query, sec_name_query) := name_queries raw_query in
  let* '(lec_nested_queries, sec_nested_queries) := nested_queries E raw_query in
  let _lec_temp := combine_all lec_nested_queries in
  let _sec_temp := combine_all sec_nested_queries in
  let combined_lec_query := combined_query "lectures" _lec_temp lec_name_query in
  let combined_sec_query := combined_query "sections" _sec_temp sec_name_query in
  Ok (QAnd query
        (Q "bool" [("must", PQueries [QOr combined_lec_query combined_sec_query])])).

(** ** Talking to the backend *)

(** A computation that may query the backend: the requests it issued, in
    order, and its result. *)
Definition Run (A : Type) : Type := (list search_request * result A)%type.

Definition run_ret {A : Type} (r : result A) : Run A := ([], r).

Definition run_bind {A B : Type} (m : Run A) (k : A -> Run B) : Run B :=
  match m with
  | (calls, Ok a) => let '(calls', r) := k a in ((calls ++ calls')%list, r)
  | (calls, Raise e) => (calls, Raise e)
  end.

Definition calls {A : Type} (m : Run A) : list search_request := fst m.
Definition outcome {A : Type} (m : Run A) : result A := snd m.

(** [Searcher.fetch] *)
Definition fetch (E : Env) (query : Query) (index : option string) (size : Z)
  (doc_type : option string) (sort : option (list string)) : Run response :=
  let s := MkRequest index doc_type query size
             (match sort with Some l => l | None => [] end) in
  ([s],
   match es_execute E s with
   | Executed r => Ok (RResponse r)
   | RaisedNotFoundError info => Ok (RValue info)
   | RaisedRequestError info => Ok (RValue info)
   | RaisedTransportError info => Ok (RValue info)
   | RaisedOther => Raise BackendError
   end).

(** [Searcher.execute], with the [generate_query] of the searcher's class. *)
Definition execute (E : Env) (generate_query : Searcher -> result Query)
  (self : Searcher) : Run response :=
  run_bind (run_ret (generate_query self))
    (fun query => fetch E query (_index self) (size self) (doc_type self) (sort self)).

(** ** Output formatting *)

Definition init_courses_output : pydict := [("response", VDict []); ("courses", VList [])].
Definition init_fces_output : pydict := [("response", VDict []); ("fces", VList [])].

Definition has_error (response : response) : bool :=
  match response with
  | RValue (VDict d) =>
      match dict_get "status" d with
      | None | Some VNone => false
      | Some _ => true
      end
  | _ => false
  end.

Definition response_to_dict (response : response) : result pydict :=
  match response with
  | RValue (VDict d) => Ok d
  | RResponse r => Ok (resp_to_dict r)
  | RValue _ => Raise AttributeError
  end.

(** What [for hit in response] goes through. *)
Inductive item : Type :=
| IHit (h : Hit)
| IValue (v : pyval).

Definition py_iter (response : response) : result (list item) :=
  match response with
  | RResponse r => Ok (map IHit (resp_hits r))
  | RValue (VDict d) => Ok (map (fun k => IValue (VStr k)) (dict_keys d))
  | RValue (VList l) => Ok (map IValue l)
  | RValue (VStr s) =>
      Ok (map (fun c => IValue (VStr (String c EmptyString))) (list_ascii_of_string s))
  | RValue _ => Raise TypeError
  end.

(** [hit.to_dict()] *)
Definition item_to_dict (hit : item) : result pydict :=
  match hit with
  | IHit h => Ok (hit_to_dict h)
  | IValue _ => Raise AttributeError
  end.

(** [output[key].append(x)] *)
Definition dict_append (key : string) (x : pyval) (output : pydict) : result pydict :=
  match dict_get key output with
  | Some (VList l) => Ok (dict_set key (VList (l ++ [x])%list) output)
  | Some _ => Raise AttributeError
  | None => Raise KeyError
  end.

(** [for hit in items: output[key].append(hit.to_dict())] *)
Fixpoint append_hits (key : string) (items : list item) (output : pydict)
  : result pydict :=
  match items with
  | [] => Ok output
  | hit :: rest =>
      let* d := item_to_dict hit in
      let* output := dict_append key (VDict d) output in
      append_hits key rest output
  end.

Definition format_output (key : string) (init : pydict) (response : response)
  : result pydict :=
  let output := init in
  let* rd := response_to_dict response in
  let output := dict_set "response" (VDict rd) output in
  if has_error response then Ok output
  else
    let* items := py_iter response in
    append_hits key items output.

Definition format_courses_output (response : response) : result pydict :=
  format_output "courses" init_courses_output response.

Definition format_fces_output (response : response) : result pydict :=
  format_output "fces" init_fces_output response.

(** ** The lookup operations *)

Definition error_response (status : Z) (message : pyval) : pyval :=
  VDict [("status", VInt status); ("error", VDict [("message", message)])].

Definition CourseSearcher_default_size : Z := 5.

Definition get_course_by_id (E : Env) (courseid : string) (term : option string)
  : Run pydict :=
  let output : pydict := [("response", VDict []); ("course", VNone)] in
  let index := term in
  if match_courseid courseid then
    let searcher :=
      CourseSearcher_init E {[ "courseid" := [VStr courseid] ]} index
        CourseSearcher_default_size in
    run_bind (execute E (CourseSearcher_generate_query E) searcher) (fun response =>
    run_ret (
      let* rd := response_to_dict response in
      let output := dict_set "response" (VDict rd) output in
      if has_error response then Ok output
      else
        match response with
        | RResponse r =>
            if negb (hits_total r =? 0) then
              let* h := subscript0 (resp_hits r) in
              Ok (dict_set "course" (VDict (hit_to_dict h)) output)
            else Ok output
        | RValue _ => Raise AttributeError
        end))
  else run_ret (Ok output).

(** [if len(output['courses']) == 0: output['response']['status'] = 404] *)
Definition mark_not_found (output : pydict) : result pydict :=
  match dict_get "courses" output with
  | Some (VList []) =>
      match dict_get "response" output with
      | Some (VDict rd) =>
          Ok (dict_set "response" (VDict (dict_set "status" (VInt 404) rd)) output)
      | Some _ => Raise TypeError
      | None => Raise KeyError
      end
  | Some (VList _) => Ok output
  | Some _ => Raise TypeError
  | None => Raise KeyError
  end.

Definition get_courses_by_id (E : Env) (courseid : string) : Run pydict :=
  let output := init_courses_output in
  if match_courseid courseid then
    let searcher :=
      CourseSearcher_init E {[ "courseid" := [VStr courseid] ]} None
        CourseSearcher_default_size in
    run_bind (execute E (CourseSearcher_generate_query E) searcher) (fun response =>
    run_ret (
      let* output := format_courses_output response in
      mark_not_found output))
  else run_ret (Ok output).

Definition search_courses (E : Env) (raw_query : raw_query_t)
  (index : option string) (size : Z) : Run pydict :=
  let searcher := CourseSearcher_init E raw_query index size in
  run_bind (execute E (CourseSearcher_generate_query E) searcher) (fun response =>
  run_ret (format_courses_output response)).

Definition get_courses_by_instructor (E : Env) (name : pyval) (fuzzy : bool)
  (index : option string) (size : Z) : Run pydict :=
  let raw_query : raw_query_t := {[ "instructor" := [name] ]} in
  let raw_query :=
    if fuzzy then <[ "instructor_fuzzy" := [name] ]> raw_query else raw_query in
  search_courses E raw_query index size.

(** The first [try] block of [get_courses_by_datetime]: the span in
    minutes, or [None] when the block raises. *)
Definition parse_span (E : Env) (span_str : option string) : option Z :=
  match span_str with
  | None => Some 0
  | Some span_str =>
      match py_int E span_str with
      | Some span_minutes =>
          if negb ((SPAN_LOWER_LIMIT E <=? span_minutes) &&
                   (span_minutes <=? SPAN_UPPER_LIMIT E))
          then None
          else Some span_minutes
      | None => None
      end
  end.

(** The second [try] block: the datetime, or [None] when the block raises. *)
Definition parse_datetime (E : Env) (datetime_str : string) : option Arrow :=
  if String.eqb datetime_str "now" then Some (arrow_now E)
  else arrow_get E datetime_str.

Definition get_courses_by_datetime (E : Env) (datetime_str : string)
  (span_str : option string) (size : Z) : Run pydict :=
  match parse_span E span_str with
  | None =>
      run_ret (Ok (dict_set "response" (error_response 400 (SPAN_PARSE_FAIL E))
                     init_courses_output))
  | Some span_minutes =>
      match parse_datetime E datetime_str with
      | None =>
          run_ret (Ok (dict_set "response" (error_response 400 (DATETIME_PARSE_FAIL E))
                         init_courses_output))
      | Some date_time =>
          let index := get_course_index_from_date E (ADateTime (arrow_datetime date_time)) in
          search_courses E
            {[ "datetime" := [VArrow date_time]; "timespan" := [VInt span_minutes] ]}
            (Some index) size
      end
  end.

Definition copy_arg (args : gmap string pyval) (k : string) (raw_query : raw_query_t)
  : raw_query_t :=
  match args !! k with
  | Some v => <[ k := [v] ]> raw_query
  | None => raw_query
  end.

Definition get_courses_by_searching (E : Env) (args : gmap string pyval) (size : Z)
  : Run pydict :=
  if Nat.eqb (base.size args) 0 then
    run_ret (Ok (dict_set "response" (error_response 400 (EMPTY_SEARCH E))
                   init_courses_output))
  else
    let raw_query : raw_query_t := ∅ in
    let raw_query :=
      if bool_decide (is_Some (args !! "text")) then copy_arg args "text" raw_query
      else copy_arg args "desc" (copy_arg args "name" raw_query) in
    let raw_query := copy_arg args "instructor" raw_query in
    let raw_query := copy_arg args "courseid" raw_query in
    let raw_query := copy_arg args "building" raw_query in
    let raw_query := copy_arg args "room" raw_query in
    let index := if bool_decide (is_Some (args !! "term")) then Some "current" else None in
    search_courses E raw_query index size.

Definition search_fces (E : Env) (raw_query : raw_query_t) (size : Z) : Run pydict :=
  let searcher := FCESearcher_init raw_query (Some (ES_FCE_INDEX E)) size (Some ["-year"]) in
  run_bind (execute E FCESearcher_generate_query searcher) (fun response =>
  run_ret (format_fces_output response)).

Definition get_fce_by_id (E : Env) (courseid : pyval) (size : Z) : Run pydict :=
  search_fces E {[ "courseid" := [courseid] ]} size.

Definition get_fce_by_instructor (E : Env) (instructor : pyval) (size : Z) : Run pydict :=
  search_fces E {[ "instructor" := [instructor] ]} size.

Definition get_courses_by_building_room (E : Env) (building room : option pyval)
  (index : option string) (size : Z) : Run pydict :=
  match building, room with
  | None, None => run_ret (Raise AssertionError)
  | _, _ =>
      let raw_query : raw_query_t := ∅ in
      let raw_query :=
        match building with
        | Some building => <[ "building" := [building] ]> raw_query
        | None => raw_query
        end in
      let raw_query :=
        match room with
        | Some room => <[ "room" := [room] ]> raw_query
        | None => raw_query
        end in
      search_courses E raw_query index size
  end.

(** ** The intervals of the year, as the description of the classifier
    words them *)

(** [(m1, d1) <= (m2, d2)] in the calendar. *)
Definition md_le (m1 d1 m2 d2 : Z) : bool :=
  (m1 <? m2) || ((m1 =? m2) && (d1 <=? d2)).

(** The date lies from [m1]/[d1] through [m2]/[d2] of its year. *)
Definition from_through (d : date) (m1 d1 m2 d2 : Z) : bool :=
  md_le m1 d1 (month d) (day d) && md_le (month d) (day d) m2 d2.

Definition semester_letters (d : date) : string :=
  if from_through d 8 21 12 31 then "f"
  else if from_through d 1 1 5 15 then "s"
  else if from_through d 5 16 7 1 then "m1"
  else "m2".

Definition semester_name (d : date) : string :=
  if from_through d 8 21 12 31 then "Fall"
  else if from_through d 1 1 5 15 then "Spring"
  else if from_through d 5 16 7 1 then "Summer One"
  else "Summer Two".

(** ** Auxiliary definitions for the proofs *)

(** After its first character a term such as [f17] holds only digits, and
    perhaps the newline that [$] lets through. *)
Fixpoint digits_or_newline (s : string) : bool :=
  match s with
  | EmptyString => true
  | String c s' => (is_digit c || Ascii.eqb c newline) && digits_or_newline s'
  end.

(** A configuration for the examples: both index prefixes are [course-],
    the time-zone conversion keeps the wall-clock fields, and the backend
    answers every request with an empty result. *)
Definition sample_arrow : Arrow :=
  MkArrow (DateTime (MkDate 2017 9 3) (MkTime 23 30 0 0)) "America/New_York".

Definition sample_response : Response :=
  MkResponse [] 0 [("hits", VDict [("total", VInt 0); ("hits", VList [])])].

Definition sample_env : Env := {|
  course_ES_COURSE_INDEX_PREFIX := "course-";
  ES_COURSE_INDEX_PREFIX := "course-";
  ES_FCE_INDEX := "fce";
  SPAN_LOWER_LIMIT := 0;
  SPAN_UPPER_LIMIT := 1440;
  SPAN_PARSE_FAIL := VStr "span parse fail";
  DATETIME_PARSE_FAIL := VStr "datetime parse fail";
  EMPTY_SEARCH := VStr "empty search";
  datetime_today := DateTime (MkDate 2018 2 1) (MkTime 12 0 0 0);
  arrow_now := sample_arrow;
  arrow_get := fun s => if String.eqb s "2017-09-03T23:30:00-04:00"
                        then Some sample_arrow else None;
  arrow_to := fun tz a => Ok (MkArrow (arrow_datetime a) tz);
  py_int := fun s => if String.eqb s "60" then Some 60 else None;
  es_execute := fun _ => Executed sample_response
|}.

(** ** The clauses of a course query, as their description words them *)

(** The conjunction of a list of clauses, from [Q()] on. *)
Definition and_all (clauses : list Query) : Query := fold_left QAnd clauses Q0.

(** The clause for the parameter [k], when it is present. *)
Definition clause_of (rq : raw_query_t) (k : string) (f : pyval -> Query) : list Query :=
  match rq !! k with
  | Some (x :: _) => [f x]
  | _ => []
  end.

Definition upper_value (v : pyval) : pyval :=
  match v with
  | VStr s => VStr (upper s)
  | _ => v
  end.

Definition course_clauses (rq : raw_query_t) : list Query :=
  (match rq !! "text" with
   | Some _ =>
       clause_of rq "text" (fun text =>
         Q "bool" [("should", PQueries [Q "match" [("name", PVal text)];
                                        Q "match" [("desc", PVal text)]])])
   | None =>
       clause_of rq "name" (fun name =>
         Q "bool" [("must", PQuery (Q "match" [("name", PVal name)]))]) ++
       clause_of rq "desc" (fun desc =>
         Q "bool" [("must", PQuery (Q "match" [("desc", PVal desc)]))])
   end ++
   clause_of rq "courseid" (fun courseid => Q "term" [("id", PVal courseid)]))%list.

Definition place_clauses (path : string) (rq : raw_query_t) : list Query :=
  (clause_of rq "building" (fun building =>
     Q "match" [(path +:+ "__times__building", PVal (upper_value building))]) ++
   clause_of rq "room" (fun room =>
     Q "match" [(path +:+ "__times__room", PVal (upper_value room))]))%list.

Definition time_clauses (E : Env) (path : string) (rq : raw_query_t) : list Query :=
  match rq !! "datetime", rq !! "timespan" with
  | Some (VArrow a :: _), Some (VInt n :: _) =>
      match arrow_to E "America/New_York" a with
      | Ok a' =>
          match datetime_add_minutes (arrow_datetime a') n with
          | Ok shifted =>
              [time_query path
                 (isoweekday (dt_date (arrow_datetime a')) mod 7)
                 (strftime_IMp (dt_time shifted))
                 (strftime_IMp (dt_time (arrow_datetime a')))]
          | Raise _ => []
          end
      | Raise _ => []
      end
  | _, _ => []
  end.

Definition instructor_clause (path : string) (rq : raw_query_t) : Query :=
  match rq !! "instructor" with
  | Some l =>
      match join_space l with
      | Ok instructor =>
          Q "match"
            [(path +:+ "__instructors",
              PVal (VDict ([("query", VStr instructor); ("operator", VStr "and")] ++
                           match rq !! "instructor_fuzzy" with
                           | Some _ => [("fuzziness", VStr "AUTO")]
                           | None => []
                           end)%list))]
      | Raise _ => Q0
      end
  | None => Q0
  end.

(** The whole query: the clauses on the course, and the lecture or the
    section that meets the clauses on place, time and instructor. *)
Definition course_query (E : Env) (rq : raw_query_t) : Query :=
  QAnd (and_all (course_clauses rq))
    (Q "bool"
       [("must",
         PQueries
           [QOr (combined_query "lectures"
                   (and_all (place_clauses "lectures" rq ++ time_clauses E "lectures" rq))
                   (instructor_clause "lectures" rq))
                (combined_query "sections"
                   (and_all (place_clauses "sections" rq ++ time_clauses E "sections" rq))
                   (instructor_clause "sections" rq))])]).

Definition fce_clauses (rq : raw_query_t) : list Query :=
  (clause_of rq "courseid" (fun courseid => Q "term" [("courseid", PVal courseid)]) ++
   clause_of rq "instructor" (fun instructor =>
     Q "match" [("instructor",
                 PVal (VDict [("query", instructor); ("operator", VStr "and")]))]))%list.

(** The raw queries on which [generate_query] raises nothing: a parameter
    that is present has a first value, of the type the code uses it at. *)
Definition is_str (v : pyval) : bool :=
  match v with VStr _ => true | _ => false end.

Definition first_is (rq : raw_query_t) (k : string) (p : pyval -> bool) : bool :=
  match rq !! k with
  | None => true
  | Some (x :: _) => p x
  | Some [] => false
  end.

Definition well_formed (E : Env) (rq : raw_query_t) : bool :=
  first_is rq "text" (fun _ => true) &&
  (match rq !! "text" with
   | Some _ => true
   | None => first_is rq "name" (fun _ => true) && first_is rq "desc" (fun _ => true)
   end) &&
  first_is rq "courseid" (fun _ => true) &&
  match rq !! "instructor" with
  | Some l => forallb is_str l
  | None => true
  end &&
  first_is rq "building" is_str &&
  first_is rq "room" is_str &&
  match rq !! "datetime" with
  | None => true
  | Some (VArrow a :: _) =>
      match arrow_to E "America/New_York" a, rq !! "timespan" with
      | Ok a', Some (VInt n :: _) => is_ok (datetime_add_minutes (arrow_datetime a') n)
      | _, _ => false
      end
  | Some _ => false
  end.

(** A searcher as [get_courses_by_datetime] builds it: a window of sixty
    minutes from a Sunday at 23:30. *)
Definition sample_window_searcher : Searcher :=
  CourseSearcher_init sample_env
    {[ "datetime" := [VArrow sample_arrow]; "timespan" := [VInt 60] ]}
    (Some "course-f17") 200.

(** A raw query with every parameter of a text search. *)
Definition sample_raw_query : raw_query_t :=
  {[ "text" := [VStr "graphs"];
     "name" := [VStr "ignored"];
     "courseid" := [VStr "15-251"];
     "instructor" := [VStr "ada"; VStr "lovelace"];
     "instructor_fuzzy" := [VStr "ada"];
     "building" := [VStr "dh"];
     "room" := [VStr "a302"] ]}.

(** The query of a search by course id alone. *)
Definition courseid_query (courseid : string) : Query :=
  QAnd (QAnd Q0 (Q "term" [("id", PVal (VStr courseid))]))
    (Q "bool" [("must", PQueries [QOr (combined_query "lectures" Q0 Q0)
                                      (combined_query "sections" Q0 Q0)])]).

(** The dict [rd] is what the backend gave for [req]: the dict of its
    response, or the [info] of the exception [fetch] caught. *)
Definition backend_dict (E : Env) (req : search_request) (rd : pydict) : Prop :=
  match es_execute E req with
  | Executed r => rd = resp_to_dict r
  | RaisedNotFoundError info | RaisedRequestError info | RaisedTransportError info =>
      info = VDict rd
  | RaisedOther => False
  end.

(** Backends that refuse every request: one with the body of a proxy, which
    has no [status], and one with the body of the search engine. *)
Definition forbidden_info : pyval := VDict [("message", VStr "Forbidden")].

Definition not_found_info : pyval :=
  VDict [("error", VStr "index_not_found_exception"); ("status", VInt 404)].

Definition with_backend (E : Env) (f : search_request -> backend_outcome) : Env :=
  MkEnv (course_ES_COURSE_INDEX_PREFIX E) (ES_COURSE_INDEX_PREFIX E) (ES_FCE_INDEX E)
    (SPAN_LOWER_LIMIT E) (SPAN_UPPER_LIMIT E) (SPAN_PARSE_FAIL E)
    (DATETIME_PARSE_FAIL E) (EMPTY_SEARCH E) (datetime_today E) (arrow_now E)
    (arrow_get E) (arrow_to E) (py_int E) f.

Definition forbidden_env : Env :=
  with_backend sample_env (fun _ => RaisedTransportError forbidden_info).

Definition not_found_env : Env :=
  with_backend sample_env (fun _ => RaisedNotFoundError not_found_info).

(** The run [m] issued one request, and the [response] of its output [out]
    is what the backend gave for it. *)
Definition response_from_backend (E : Env) (m : Run pydict) (out : pydict) : Prop :=
  exists req rd,
    calls m = [req] /\ backend_dict E req rd /\
    dict_get "response" out = Some (VDict rd).

(** A response with two hits. *)
Definition two_hits_response : Response :=
  MkResponse [MkHit [("id", VStr "15-112")]; MkHit [("id", VStr "15-122")]] 2
    [("hits", VDict [("total", VInt 2)])].

(** ** [common/utils.py]: strings *)

Fixpoint string_map (f : ascii -> ascii) (s : string) : string :=
  match s with
  | EmptyString => EmptyString
  | String c s' => String (f c) (string_map f s')
  end.

Fixpoint string_forallb (p : ascii -> bool) (s : string) : bool :=
  match s with
  | EmptyString => true
  | String c s' => p c && string_forallb p s'
  end.

(** [c.isspace()]: the code points 9 to 13, 28 to 32, 133 and 160. *)
Definition is_space (c : ascii) : bool :=
  let n := nat_of_ascii c in
  (((9 <=? n) && (n <=? 13)) || ((28 <=? n) && (n <=? 32)) ||
   (n =? 133) || (n =? 160))%nat.

(** [c.lower()]: the letters A to Z and the upper-case letters from 192 to
    222 (all but the multiplication sign, 215) move up by 32. *)
Definition lower_char (c : ascii) : ascii :=
  let n := nat_of_ascii c in
  if (((65 <=? n) && (n <=? 90)) || ((192 <=? n) && (n <=? 214)) ||
      ((216 <=? n) && (n <=? 222)))%nat
  then ascii_of_nat (n + 32) else c.

(** [s.lower()] *)
Definition lower (s : string) : string := string_map lower_char s.

(** [s.lstrip()] *)
Fixpoint lstrip (s : string) : string :=
  match s with
  | EmptyString => EmptyString
  | String c s' => if is_space c then lstrip s' else s
  end.

(** [s.rstrip()] *)
Fixpoint rstrip (s : string) : string :=
  match s with
  | EmptyString => EmptyString
  | String c s' =>
      match rstrip s' with
      | EmptyString => if is_space c then EmptyString else String c EmptyString
      | r => String c r
      end
  end.

(** [s.strip()] *)
Definition strip (s : string) : string := lstrip (rstrip s).

(** [s.split(sep)] for a separator that is not empty, read from the left:
    the first piece up to the next separator, then the other pieces.
    [skip] counts the characters of a separator still to pass. *)
Fixpoint split_from (sep : string) (skip : nat) (s : string) : list string :=
  match s with
  | EmptyString => [EmptyString]
  | String c s' =>
      match skip with
      | S k => split_from sep k s'
      | O =>
          if String.prefix sep s
          then EmptyString :: split_from sep (String.length sep - 1) s'
          else match split_from sep 0 s' with
               | piece :: rest => String c piece :: rest
               | [] => [String c EmptyString]
               end
      end
  end.

Definition split (sep s : string) : list string := split_from sep 0 s.

(** The characters the class [[%s]] of [eliminatePunc] matches, with
    [string.punctuation] in it: the punctuation but the backslash, which
    in the class only escapes the bracket that follows it. *)
Definition in_punctuation_class (c : ascii) : bool :=
  let n := nat_of_ascii c in
  (((33 <=? n) && (n <=? 47)) || ((58 <=? n) && (n <=? 64)) || (n =? 91) ||
   ((93 <=? n) && (n <=? 96)) || ((123 <=? n) && (n <=? 126)))%nat.

Definition eliminatePunc (s : string) : string :=
  string_map (fun c => if in_punctuation_class c then " "%char else c) s.

(** [splitString(s, separator)]; [None] is the ValueError of [split] on an
    empty separator. *)
Definition splitString (s : string) (separator : string) : option (list string) :=
  match separator with
  | EmptyString => None
  | _ =>
      Some (map (fun elem => lower (strip elem))
              (List.filter (fun elem => negb (String.eqb (strip elem) EmptyString))
                 (split separator s)))
  end.

Definition getSearchable (s : string) : option (list string) :=
  splitString (lower (eliminatePunc s)) " ".

(** Settle a fact about one character by going through the 256 of them. *)
Ltac ascii_cases c := destruct c as [[] [] [] [] [] [] [] []]; reflexivity.

(** ** [common/utils.py]: [Listdict] *)

(** A [Listdict]: a dict whose values are lists, in insertion order. *)
Abbreviation Listdict A := (list (string * list A)).

(** [self.concat(other)]. The deep copy of [other] keeps the two dicts
    from sharing a list afterwards; the values are as written here. *)
Definition Listdict_concat {A : Type} (self other : Listdict A) : Listdict A :=
  fold_left
    (fun self kv =>
       let '(key, value) := kv in
       match dict_get key self with
       | Some l => dict_set key (l ++ value)%list self
       | None => dict_set key value self
       end)
    other self.

(** ** [common/utils.py]: [parse_time] *)

Definition digit_value (c : ascii) : Z := Z.of_nat (nat_of_ascii c) - 48.

(** The character lies between the digits [lo] and [hi]. *)
Definition digit_in (lo hi : Z) (c : ascii) : bool :=
  is_digit c && (lo <=? digit_value c) && (digit_value c <=? hi).

(** How a group of the regular expression that [strptime] builds matches
    at the head of a string: the number read and the rest of the string,
    one pair for each alternative that matches, in the order the
    expression tries them. *)
Definition two_digit_group (p1 p2 : ascii -> bool) (s : string) : list (Z * string) :=
  match s with
  | String a (String b rest) =>
      if p1 a && p2 b then [(digit_value a * 10 + digit_value b, rest)] else []
  | _ => []
  end.

Definition one_digit_group (p : ascii -> bool) (s : string) : list (Z * string) :=
  match s with
  | String a rest => if p a then [(digit_value a, rest)] else []
  | _ => []
  end.

(** [%I]: [(?P<I>1[0-2]|0[1-9]|[1-9])] *)
Definition group_I (s : string) : list (Z * string) :=
  (two_digit_group (digit_in 1 1) (digit_in 0 2) s ++
   two_digit_group (digit_in 0 0) (digit_in 1 9) s ++
   one_digit_group (digit_in 1 9) s)%list.

(** [%H]: [(?P<H>2[0-3]|[0-1]\d|\d)] *)
Definition group_H (s : string) : list (Z * string) :=
  (two_digit_group (digit_in 2 2) (digit_in 0 3) s ++
   two_digit_group (digit_in 0 1) is_digit s ++
   one_digit_group is_digit s)%list.

(** [%M]: [(?P<M>[0-5]\d|\d)] *)
Definition group_M (s : string) : list (Z * string) :=
  (two_digit_group (digit_in 0 5) is_digit s ++ one_digit_group is_digit s)%list.

(** [%p]: [(?P<p>am|pm)], in either case; [true] is for [pm]. *)
Definition group_p (s : string) : list (bool * string) :=
  match s with
  | String a (String m rest) =>
      if Ascii.eqb (lower_char m) "m" then
        if Ascii.eqb (lower_char a) "a" then [(false, rest)]
        else if Ascii.eqb (lower_char a) "p" then [(true, rest)]
        else []
      else []
  | _ => []
  end.

(** The colon of the format. *)
Definition group_colon (s : string) : list string :=
  match s with
  | String c rest => if Ascii.eqb c ":" then [rest] else []
  | EmptyString => []
  end.

(** The first match of the expression must reach the end of the string. *)
Definition whole_match {A : Type} (matches : list (A * string)) : option A :=
  match matches with
  | (x, EmptyString) :: _ => Some x
  | _ => None
  end.

(** [datetime.datetime.strptime(s, "%I:%M%p").time()]; [None] when it
    raises. *)
Definition strptime_IMp (time_string : string) : option time :=
  let matches :=
    flat_map (fun '(i, r1) =>
    flat_map (fun r2 =>
    flat_map (fun '(m, r3) =>
    map (fun '(pm, r4) => ((i, m, pm), r4)) (group_p r3))
      (group_M r2)) (group_colon r1)) (group_I time_string) in
  match whole_match matches with
  | Some (i, m, pm) =>
      let hour :=
        if pm then (if i =? 12 then i else i + 12)
        else (if i =? 12 then 0 else i) in
      Some (MkTime hour m 0 0)
  | None => None
  end.

(** [datetime.datetime.strptime(s, "%H:%M").time()]; [None] when it
    raises. *)
Definition strptime_HM (time_string : string) : option time :=
  let matches :=
    flat_map (fun '(h, r1) =>
    flat_map (fun r2 =>
    map (fun '(m, r3) => ((h, m), r3)) (group_M r2))
      (group_colon r1)) (group_H time_string) in
  match whole_match matches with
  | Some (h, m) => Some (MkTime h m 0 0)
  | None => None
  end.

Definition parse_time (time_string : string) : option time :=
  match strptime_IMp time_string with
  | Some t => Some t
  | None => strptime_HM time_string
  end.

(** Equality of two times of day. *)
Definition time_eqb (a b : time) : bool :=
  (hour a =? hour b) && (minute a =? minute b) && (second a =? second b) &&
  (microsecond a =? microsecond b).

(** ** [common/utils.py]: [word_limit] *)

Definition word_limit_arg (arg : pyval) : pyval :=
  match arg with
  | VStr s => if (100 <? String.length s)%nat then VStr (substring 0 100 s) else arg
  | _ => arg
  end.

(** The function [word_limit(f)], on its positional and keyword arguments. *)
Definition word_limit {R : Type} (f : list pyval -> pydict -> R)
  (args : list pyval) (kwargs : pydict) : R :=
  f (map word_limit_arg args) (map (fun kv => (fst kv, word_limit_arg (snd kv))) kwargs).

(** What [word_limit] makes of an argument: of a string its start, at most
    100 characters long and the whole of it when it is within the limit;
    of anything else, the thing itself. *)
Definition limited (arg arg' : pyval) : Prop :=
  match arg with
  | VStr s =>
      exists s', arg' = VStr s' /\ (String.length s' <= 100)%nat /\
                 String.prefix s' s = true /\
                 ((String.length s <= 100)%nat -> s' = s)
  | _ => arg' = arg
  end.

(** ** [common/search.py]: [list_all_courses] *)

(** [[elem['_id'] for elem in hits]]; [None] when an element is no dict or
    has no [_id], which raises. *)
Fixpoint hit_ids (hits : list pyval) : option (list pyval) :=
  match hits with
  | [] => Some []
  | VDict elem :: rest =>
      match dict_get "_id" elem, hit_ids rest with
      | Some id, Some ids => Some (id :: ids)
      | _, _ => None
      end
  | _ :: _ => None
  end.

(** [list_all_courses(term)]. Its search asks for the hits without their
    source, so its backend is a function of its own,
    [execute_without_source]. Whatever is raised inside the [try] block
    ends in the empty list, and so does a value of [response['hits']['hits']]
    that is no list: going through it raises or finds nothing. What the
    function prints is left out. *)
Definition list_all_courses (E : Env)
  (execute_without_source : search_request -> backend_outcome) (term : string)
  : Run (list pyval) :=
  let index :=
    if String.eqb term "current" then get_current_course_index E
    else ES_COURSE_INDEX_PREFIX E +:+ term in
  let query := Q0 in
  let s := MkRequest (Some index) None query 7000 [] in
  ([s],
   match execute_without_source s with
   | Executed r =>
       let response := resp_to_dict r in
       match dict_get "hits" response with
       | Some (VDict hits) =>
           match dict_get "hits" hits with
           | Some (VList l) =>
               match hit_ids l with
               | Some courseids => Ok courseids
               | None => Ok []
               end
           | _ => Ok []
           end
       | _ => Ok []
       end
   | _ => Ok []
   end).

(** A backend for [list_all_courses] that lists two hits. *)
Definition sample_ids_backend (req : search_request) : backend_outcome :=
  Executed (MkResponse [] 2
              [("hits", VDict [("total", VInt 2);
                               ("hits", VList [VDict [("_id", VStr "15-112")];
                                               VDict [("_id", VStr "15-122")]])])]).

(** The request of a search by course id in the index chosen for [term]. *)
Definition courseid_request (E : Env) (courseid : string) (term : option string)
  : search_request :=
  MkRequest (CourseSearcher_set_index E term) (Some "course") (courseid_query courseid)
    CourseSearcher_default_size [].

(** A backend whose search engine answers with an internal error. *)
Definition server_error_info : pyval :=
  VDict [("error", VStr "search_phase_execution_exception"); ("status", VInt 500)].

Definition server_error_env : Env :=
  with_backend sample_env (fun _ => RaisedTransportError server_error_info).

Definition two_hits_env : Env :=
  with_backend sample_env (fun _ => Executed two_hits_response).

(** The query of a search by place: the clauses on the upper-cased
    building and room, under the lectures or under the sections. *)
Definition place_clause (path field : string) (value : option string) : list Query :=
  match value with
  | Some u => [Q "match" [(path +:+ "__times__" +:+ field, PVal (VStr u))]]
  | None => []
  end.

Definition place_query (building room : option string) : Query :=
  QAnd Q0
    (Q "bool"
       [("must",
         PQueries
           [QOr (combined_query "lectures"
                   (and_all (place_clause "lectures" "building" building ++
                             place_clause "lectures" "room" room))
                   Q0)
                (combined_query "sections"
                   (and_all (place_clause "sections" "building" building ++
                             place_clause "sections" "room" room))
                   Q0)])]).

(** ** Searches by keyword and by datetime *)

(** The keys of the arguments that [get_courses_by_searching] copies into
    the raw query. *)
Definition search_keys : list string :=
  ["text"; "name"; "desc"; "instructor"; "courseid"; "building"; "room"].

(** The query of a search by datetime alone: the clauses on the day and on
    the two bounds, under the lectures or under the sections. *)
Definition window_query (day : Z) (shifted_time time : string) : Query :=
  QAnd Q0
    (Q "bool"
       [("must",
         PQueries
           [QOr (combined_query "lectures"
                   (QAnd Q0 (time_query "lectures" day shifted_time time)) Q0)
                (combined_query "sections"
                   (QAnd Q0 (time_query "sections" day shifted_time time)) Q0)])]).

(** Arguments of a search by keyword, with a term. *)
Definition sample_args : gmap string pyval :=
  {[ "text" := VStr "graphs"; "term" := VStr "f17" ]}.

Definition sample_args_more : gmap string pyval :=
  {[ "text" := VStr "graphs"; "term" := VStr "s18";
     "datetime_str" := VStr "2017-09-03T23:30:00-04:00" ]}.

(** The query of a search by instructor: the [match] on the instructors of
    the lectures or of the sections, fuzzy or not. *)
Definition instructor_match (path name : string) (fuzzy : bool) : Query :=
  Q "match"
    [(path +:+ "__instructors",
      PVal (VDict ([("query", VStr name); ("operator", VStr "and")] ++
                   (if fuzzy then [("fuzziness", VStr "AUTO")] else []))%list))].

Definition instructor_query (name : string) (fuzzy : bool) : Query :=
  QAnd Q0
    (Q "bool"
       [("must",
         PQueries
           [QOr (combined_query "lectures" Q0 (instructor_match "lectures" name fuzzy))
                (combined_query "sections" Q0 (instructor_match "sections" name fuzzy))])]).

(** ** Tactics *)

Ltac no_branch t :=
  lazymatch t with
  | context [ if _ then _ else _ ] => fail
  | _ => idtac
  end.

(** Decide the integer comparisons of the goal one at a time, dropping the
    branches that contradict the context. *)
Ltac zcases :=
  repeat (match goal with
          | |- context [ ?a <? ?b ] =>
              no_branch a; no_branch b; destruct (Z.ltb_spec a b)
          | |- context [ ?a <=? ?b ] =>
              no_branch a; no_branch b; destruct (Z.leb_spec a b)
          | |- context [ ?a =? ?b ] =>
              no_branch a; no_branch b; destruct (Z.eqb_spec a b)
          end; try lia; cbn [andb orb negb]).

(** Take apart the boolean hypotheses that hold. *)
Ltac split_bools :=
  repeat match goal with
    | H : _ && _ = true |- _ => apply andb_prop in H; destruct H
    | H : _ || _ = true |- _ => apply orb_prop in H; destruct H
    | H : Ascii.eqb _ _ = true |- _ => apply Ascii.eqb_eq in H; subst
    end.

(** * Properties *)

Lemma bind_ok {A B : Type} (r : result A) (k : A -> result B) (b : B) :
  bind r k = Ok b -> exists a, r = Ok a /\ k a = Ok b.
Proof. destruct r as [a|e]; simpl; [eauto | discriminate]. Qed.

Lemma subscript0_ok {A : Type} (l : list A) (x : A) :
  subscript0 l = Ok x -> exists l', l = x :: l'.
Proof. destruct l; simpl; intros H; inversion H; subst; eauto. Qed.

Lemma days_in_month_bounds (y m : Z) : 28 <= days_in_month y m <= 31.
Proof.
  unfold days_in_month.
  destruct (m =? 2); [destruct (is_leap y); lia |].
  destruct ((m =? 4) || (m =? 6) || (m =? 9) || (m =? 11)); lia.
Qed.

Lemma valid_date_bounds (d : date) :
  valid_date d = true ->
  1 <= year d <= 9999 /\ 1 <= month d <= 12 /\ 1 <= day d <= 31.
Proof.
  unfold valid_date, MINYEAR, MAXYEAR. intros H.
  repeat (apply andb_prop in H; destruct H as [H ?]).
  pose proof (days_in_month_bounds (year d) (month d)). lia.
Qed.

Lemma md_le_code (m1 d1 m2 d2 : Z) :
  1 <= d1 <= 31 -> 1 <= d2 <= 31 ->
  md_le m1 d1 m2 d2 = (m1 * 100 + d1 <=? m2 * 100 + d2).
Proof. intros H1 H2. unfold md_le. zcases; reflexivity. Qed.

Lemma date_le_same_year (y m1 d1 m2 d2 : Z) :
  date_le (MkDate y m1 d1) (MkDate y m2 d2) = md_le m1 d1 m2 d2.
Proof.
  unfold date_le, date_lt, md_le. simpl.
  rewrite Z.ltb_irrefl, Z.eqb_refl. simpl. zcases; reflexivity.
Qed.

Lemma date_lt_same_year (y m1 d1 m2 d2 : Z) :
  date_lt (MkDate y m1 d1) (MkDate y m2 d2) = negb (md_le m2 d2 m1 d1).
Proof.
  unfold date_lt, md_le. simpl.
  rewrite Z.ltb_irrefl, Z.eqb_refl. simpl. zcases; reflexivity.
Qed.

(** [get_mini] with its comparisons written on [month * 100 + day]. *)
Lemma get_mini_code (today : date) (y m d : Z) :
  1 <= d <= 31 ->
  get_mini today (Some (ADate (MkDate y m d))) =
  let k := m * 100 + d in
  if (820 <? k) && (k <=? 1015) then 1
  else if (1015 <? k) && (k <=? 1231) then 2
  else if (101 <=? k) && (k <=? 315) then 3
  else if (315 <? k) && (k <=? 515) then 4
  else if (515 <? k) && (k <=? 701) then 5
  else if (701 <? k) && (k <=? 820) then 6
  else 0.
Proof.
  intros Hd. unfold get_mini. cbn [year].
  rewrite !date_lt_same_year, !date_le_same_year.
  rewrite !md_le_code by lia. cbv zeta.
  rewrite <- !Z.ltb_antisym. reflexivity.
Qed.

Lemma get_mini_arg (today : date) (a : date_arg) :
  get_mini today (Some a) = get_mini today (Some (ADate (arg_date a))).
Proof. destruct a; reflexivity. Qed.

(** [get_mini] on a date is one of the six minis: the six intervals cover
    the year. *)
Lemma get_mini_range (today : date) (a : date_arg) :
  valid_date (arg_date a) = true ->
  1 <= get_mini today (Some a) <= 6.
Proof.
  intros Hv. apply valid_date_bounds in Hv.
  rewrite get_mini_arg. destruct (arg_date a) as [y m d]. simpl in Hv.
  rewrite get_mini_code by lia. cbv zeta.
  zcases; lia.
Qed.

(** The four-digit years: [str(year)[2:]] is the year's last two digits. *)
Lemma slice_four_digit_year (y : Z) :
  1000 <= y <= 9999 -> slice_from 2 (py_str_int y) = two_digits (y mod 100).
Proof.
  intros Hy.
  assert (Hall : forallb (fun i => String.eqb
                          (slice_from 2 (py_str_int (1000 + Z.of_nat i)))
                          (two_digits ((1000 + Z.of_nat i) mod 100)))
                   (seq 0 (Z.to_nat 9000)) = true) by (vm_compute; reflexivity).
  rewrite forallb_forall in Hall.
  specialize (Hall (Z.to_nat (y - 1000))).
  replace (1000 + Z.of_nat (Z.to_nat (y - 1000))) with y in Hall by lia.
  apply String.eqb_eq, Hall, in_seq. lia.
Qed.

Lemma from_through_code (d : date) (m1 d1 m2 d2 : Z) :
  1 <= day d <= 31 -> 1 <= d1 <= 31 -> 1 <= d2 <= 31 ->
  from_through d m1 d1 m2 d2 =
  (m1 * 100 + d1 <=? month d * 100 + day d) && (month d * 100 + day d <=? m2 * 100 + d2).
Proof. intros. unfold from_through. rewrite !md_le_code by lia. reflexivity. Qed.

Lemma summer_two_interval (d : date) :
  valid_date d = true ->
  from_through d 8 21 12 31 = false -> from_through d 1 1 5 15 = false ->
  from_through d 5 16 7 1 = false -> from_through d 7 2 8 20 = true.
Proof.
  intros Hv. apply valid_date_bounds in Hv.
  rewrite !from_through_code by lia.
  zcases; intros; try discriminate; try reflexivity; lia.
Qed.

Lemma semester_letters_correct (today : date) (a : date_arg) :
  valid_date (arg_date a) = true ->
  get_semester_short_from_date today a
  = semester_letters (arg_date a) +:+ slice_from 2 (py_str_int (arg_year a)).
Proof.
  intros Hv. apply valid_date_bounds in Hv.
  unfold get_semester_short_from_date. f_equal.
  rewrite get_mini_arg. unfold semester_letters.
  rewrite !from_through_code by lia.
  destruct (arg_date a) as [y m d]. simpl in Hv.
  rewrite get_mini_code by lia. cbn [month day]. cbv zeta.
  zcases; try reflexivity; lia.
Qed.

Lemma semester_name_correct (today : date) (a : date_arg) :
  valid_date (arg_date a) = true ->
  get_semester_from_date today a
  = semester_name (arg_date a) +:+ " " +:+ py_str_int (arg_year a).
Proof.
  intros Hv. apply valid_date_bounds in Hv.
  unfold get_semester_from_date. f_equal.
  rewrite get_mini_arg. unfold semester_name.
  rewrite !from_through_code by lia.
  destruct (arg_date a) as [y m d]. simpl in Hv.
  rewrite get_mini_code by lia. cbn [month day]. cbv zeta.
  zcases; try reflexivity; lia.
Qed.

Lemma two_digits_shape (n : Z) :
  0 <= n < 100 ->
  exists c1 c2, two_digits n = String c1 (String c2 EmptyString) /\
                is_digit c1 = true /\ is_digit c2 = true.
Proof.
  intros Hn.
  assert (Hall : forallb (fun i =>
                   match two_digits (Z.of_nat i) with
                   | String c1 (String c2 EmptyString) => is_digit c1 && is_digit c2
                   | _ => false
                   end) (seq 0 100) = true) by (vm_compute; reflexivity).
  rewrite forallb_forall in Hall.
  specialize (Hall (Z.to_nat n)). rewrite Z2Nat.id in Hall by lia.
  assert (Hin : In (Z.to_nat n) (seq 0 100)) by (apply in_seq; lia).
  apply Hall in Hin.
  destruct (two_digits n) as [|c1 [|c2 [|]]]; try discriminate.
  apply andb_prop in Hin. destruct Hin. eauto.
Qed.

Lemma semester_letters_cases (d : date) :
  semester_letters d = "f" \/ semester_letters d = "s" \/
  semester_letters d = "m1" \/ semester_letters d = "m2".
Proof.
  unfold semester_letters.
  repeat match goal with |- context [ if ?b then _ else _ ] => destruct b end; auto.
Qed.

(** For a four-digit year the short name is the semester letters followed
    by the last two digits of the year, and has the syntax of a term. *)
Lemma semester_short_four_digit_year (today : date) (a : date_arg) :
  valid_date (arg_date a) = true -> 1000 <= arg_year a ->
  get_semester_short_from_date today a
  = semester_letters (arg_date a) +:+ two_digits (arg_year a mod 100).
Proof.
  intros Hv Hy. rewrite semester_letters_correct by assumption.
  rewrite slice_four_digit_year; [reflexivity |].
  apply valid_date_bounds in Hv. destruct a; simpl in *; lia.
Qed.

Lemma semester_short_matches (today : date) (a : date_arg) :
  valid_date (arg_date a) = true -> 1000 <= arg_year a ->
  match_semester (get_semester_short_from_date today a) = true /\
  get_semester_short_from_date today a <> "current".
Proof.
  intros Hv Hy. rewrite semester_short_four_digit_year by assumption.
  destruct (two_digits_shape (arg_year a mod 100)) as (c1 & c2 & -> & H1 & H2).
  { apply Z.mod_pos_bound. lia. }
  destruct (semester_letters_cases (arg_date a)) as [-> | [-> | [-> | ->]]];
    (split; [cbv -[is_digit]; rewrite ?H1, ?H2; reflexivity
            | discriminate]).
Qed.

(** ** Index selection *)

Lemma set_index_semester (E : Env) (value : string) :
  match_semester value = true ->
  CourseSearcher_set_index E (Some value) = Some (ES_COURSE_INDEX_PREFIX E +:+ value).
Proof.
  intros Hm. unfold CourseSearcher_set_index. rewrite Hm.
  destruct (String.eqb_spec value "current") as [-> | _]; [discriminate | reflexivity].
Qed.

Lemma set_index_other (E : Env) (value : string) :
  value <> "current" -> match_semester value = false ->
  CourseSearcher_set_index E (Some value) = Some value.
Proof.
  intros Hc Hm. unfold CourseSearcher_set_index. rewrite Hm.
  destruct (String.eqb_spec value "current"); [contradiction | reflexivity].
Qed.

(** No string that ends with the semester letters and more is [current]. *)
Lemma append_eq_inv (p x s : string) :
  p +:+ x = s -> exists n, x = slice_from n s.
Proof.
  revert s. induction p as [|c p IH]; intros s H; simpl in H.
  - exists O. destruct s; auto.
  - destruct s as [|c' s]; [discriminate |]. inversion H; subst.
    destruct (IH _ eq_refl) as [n Hn]. exists (S n). exact Hn.
Qed.

Lemma letters_not_suffix_of_current (p letters t : string) :
  letters = "f" \/ letters = "s" \/ letters = "m1" \/ letters = "m2" ->
  p +:+ letters +:+ t <> "current".
Proof.
  intros Hl H. apply append_eq_inv in H. destruct H as [n H].
  do 8 (destruct n as [|n];
        [destruct Hl as [-> | [-> | [-> | ->]]]; discriminate |]).
  destruct Hl as [-> | [-> | [-> | ->]]]; discriminate.
Qed.

Lemma course_index_not_current (E : Env) (a : date_arg) :
  get_course_index_from_date E a <> "current".
Proof.
  unfold get_course_index_from_date, get_semester_short_from_date.
  apply letters_not_suffix_of_current.
  repeat match goal with |- context [ if ?b then _ else _ ] => destruct b end; auto.
Qed.

Lemma at_end_digits_or_newline (s : string) :
  at_end s = true -> digits_or_newline s = true.
Proof.
  destruct s as [|c [|]]; simpl; try discriminate; [reflexivity |].
  intros H. rewrite H, orb_true_r. reflexivity.
Qed.

Lemma match_semester_tail (a : ascii) (s : string) :
  match_semester (String a s) = true -> digits_or_newline s = true.
Proof.
  unfold match_semester. destruct s as [|b [|c rest]]; try discriminate.
  intros H. apply orb_prop in H. destruct H as [H | H].
  - split_bools; cbn [digits_or_newline];
      repeat match goal with H : is_digit _ = true |- _ => rewrite H; clear H end;
      rewrite at_end_digits_or_newline by assumption; reflexivity.
  - destruct rest as [|d rest']; [rewrite andb_false_r in H; discriminate |].
    split_bools; cbn [digits_or_newline];
      repeat match goal with H : is_digit _ = true |- _ => rewrite H; clear H end;
      rewrite at_end_digits_or_newline by assumption; reflexivity.
Qed.

Lemma letters_break_tail (p letters t : string) :
  letters = "f" \/ letters = "s" \/ letters = "m1" \/ letters = "m2" ->
  digits_or_newline (p +:+ letters +:+ t) = false.
Proof.
  intros Hl. induction p as [|c p IH].
  - destruct Hl as [-> | [-> | [-> | ->]]]; reflexivity.
  - change (String c p +:+ letters +:+ t) with (String c (p +:+ letters +:+ t)).
    cbn [digits_or_newline]. rewrite IH. apply andb_false_r.
Qed.

(** A string that ends with the semester letters and more has the syntax
    of a term only when nothing precedes the letters. *)
Lemma match_semester_prefix (p letters t : string) :
  letters = "f" \/ letters = "s" \/ letters = "m1" \/ letters = "m2" ->
  match_semester (p +:+ letters +:+ t) = true -> p = EmptyString.
Proof.
  intros Hl Hm. destruct p as [|c p]; [reflexivity |].
  change (String c p +:+ letters +:+ t) with (String c (p +:+ letters +:+ t)) in Hm.
  apply match_semester_tail in Hm.
  rewrite letters_break_tail in Hm by assumption. discriminate.
Qed.

Lemma short_letters (today : date) (a : date_arg) :
  exists letters t,
    (letters = "f" \/ letters = "s" \/ letters = "m1" \/ letters = "m2") /\
    get_semester_short_from_date today a = letters +:+ t.
Proof.
  unfold get_semester_short_from_date.
  repeat match goal with |- context [ if ?b then _ else _ ] => destruct b end;
    eauto 10.
Qed.

(** What the setter makes of an index computed from a date. *)
Lemma set_index_course_index (E : Env) (a : date_arg) :
  CourseSearcher_set_index E (Some (get_course_index_from_date E a))
  = Some (get_course_index_from_date E a) \/
  (course_ES_COURSE_INDEX_PREFIX E = EmptyString /\
   CourseSearcher_set_index E (Some (get_course_index_from_date E a))
   = Some (ES_COURSE_INDEX_PREFIX E +:+
           get_semester_short_from_date (date_today E) a)).
Proof.
  destruct (match_semester (get_course_index_from_date E a)) eqn:Hm.
  - right. rewrite set_index_semester by assumption.
    unfold get_course_index_from_date in *.
    destruct (short_letters (date_today E) a) as (l & t & Hl & Hs).
    rewrite Hs in Hm. apply match_semester_prefix in Hm; [| assumption].
    rewrite Hm. split; reflexivity.
  - left. apply set_index_other; [apply course_index_not_current | assumption].
Qed.

Lemma execute_run (E : Env) (generate_query : Searcher -> result Query) (self : Searcher) :
  execute E generate_query self =
  match generate_query self with
  | Ok query => fetch E query (_index self) (size self) (doc_type self) (sort self)
  | Raise e => ([], Raise e)
  end.
Proof. unfold execute, run_bind, run_ret. destruct (generate_query self); reflexivity. Qed.

Lemma search_courses_calls (E : Env) (rq : raw_query_t) (index : option string)
  (size : Z) (req : search_request) :
  In req (calls (search_courses E rq index size)) ->
  sr_index req = CourseSearcher_set_index E index /\
  sr_doc_type req = Some "course" /\ sr_size req = size /\
  CourseSearcher_generate_query E (CourseSearcher_init E rq index size)
  = Ok (sr_query req).
Proof.
  unfold search_courses. rewrite execute_run.
  destruct (CourseSearcher_generate_query E (CourseSearcher_init E rq index size))
    as [q | e]; cbn.
  - destruct (es_execute E _); cbn; intros [<- | []]; auto.
  - intros [].
Qed.

(** C3, at a year of three digits: the code keeps what follows the first
    two characters of the year, [9] for 999, where the last two digits of
    the year are [99]. *)
Theorem semester_short_year_999 (today : date) :
  valid_date (MkDate 999 9 1) = true /\
  get_semester_short_from_date today (ADate (MkDate 999 9 1)) = "f9" /\
  semester_letters (MkDate 999 9 1) +:+ two_digits (999 mod 100) = "f99".
Proof. repeat split. Qed.

(** C9, at a year of three digits: [get_mini] is one of the six minis, yet
    the short name [f9] does not have the syntax of a term and the index
    setter stores it as it is, without the index prefix. *)
Theorem semester_short_year_999_not_a_term (E : Env) :
  1 <= get_mini (date_today E) (Some (ADate (MkDate 999 9 1))) <= 6 /\
  get_semester_short_from_date (date_today E) (ADate (MkDate 999 9 1)) = "f9" /\
  match_semester "f9" = false /\
  CourseSearcher_set_index E (Some "f9") = Some "f9".
Proof. repeat split; cbv; discriminate. Qed.

(** For four-digit years the short name has the syntax of a term, and the
    index setter puts the index prefix before it. *)
Lemma set_index_semester_short (E : Env) (a : date_arg) :
  valid_date (arg_date a) = true -> 1000 <= arg_year a ->
  CourseSearcher_set_index E (Some (get_semester_short_from_date (date_today E) a))
  = Some (ES_COURSE_INDEX_PREFIX E +:+ get_semester_short_from_date (date_today E) a).
Proof.
  intros Hv Hy. apply set_index_semester.
  apply semester_short_matches; assumption.
Qed.



(** ** Query construction *)

Section Queries.

Variable E : Env.

Lemma has_key {A : Type} (o : option A) :
  bool_decide (is_Some o) = match o with Some _ => true | None => false end.
Proof.
  destruct o.
  - apply bool_decide_eq_true_2. eauto.
  - apply bool_decide_eq_false_2. intros [? ?]. discriminate.
Qed.

Lemma combine_all_and_all (d : nested_dict) :
  combine_all d = and_all (map snd d).
Proof.
  unfold combine_all, and_all. generalize Q0.
  induction d as [|kv d IH]; intros q; simpl; [reflexivity | apply IH].
Qed.

Lemma text_clauses_spec (rq : raw_query_t) (query q : Query) :
  text_clauses rq query = Ok q ->
  q = fold_left QAnd
        (match rq !! "text" with
         | Some _ =>
             clause_of rq "text" (fun text =>
               Q "bool" [("should", PQueries [Q "match" [("name", PVal text)];
                                              Q "match" [("desc", PVal text)]])])
         | None =>
             clause_of rq "name" (fun name =>
               Q "bool" [("must", PQuery (Q "match" [("name", PVal name)]))]) ++
             clause_of rq "desc" (fun desc =>
               Q "bool" [("must", PQuery (Q "match" [("desc", PVal desc)]))])
         end)%list query.
Proof.
  unfold text_clauses, clause_of, first_of. rewrite !has_key.
  destruct (rq !! "text") as [[|t ?] |]; simpl; try discriminate.
  - intros H; inversion H; reflexivity.
  - destruct (rq !! "name") as [[|n ?] |]; simpl; try discriminate;
      destruct (rq !! "desc") as [[|d ?] |]; simpl; try discriminate;
      intros H; inversion H; reflexivity.
Qed.

Lemma courseid_clause_spec (self : Searcher) (query q : Query) :
  is_Some (_index self) ->
  courseid_clause E self query = Ok q ->
  q = fold_left QAnd
        (clause_of (raw_query self) "courseid"
           (fun courseid => Q "term" [("id", PVal courseid)])) query.
Proof.
  intros [i Hi]. unfold courseid_clause, clause_of, first_of. rewrite has_key, Hi.
  destruct (raw_query self !! "courseid") as [[|c ?] |]; simpl; try discriminate;
    intros H; inversion H; reflexivity.
Qed.

Lemma name_queries_spec (rq : raw_query_t) (l s : Query) :
  name_queries rq = Ok (l, s) ->
  l = instructor_clause "lectures" rq /\ s = instructor_clause "sections" rq.
Proof.
  unfold name_queries, instructor_clause. rewrite !has_key.
  destruct (rq !! "instructor") as [names |]; simpl.
  - destruct (join_space names) as [i | e]; simpl; [| discriminate].
    destruct (rq !! "instructor_fuzzy"); intros H; inversion H; split; reflexivity.
  - intros H; inversion H; split; reflexivity.
Qed.

Lemma py_upper_ok (v w : pyval) : py_upper v = Ok w -> w = upper_value v.
Proof. destruct v; simpl; intros H; inversion H; reflexivity. Qed.

Lemma nested_queries_spec (rq : raw_query_t) (lec sec : nested_dict) :
  nested_queries E rq = Ok (lec, sec) ->
  map snd lec = (place_clauses "lectures" rq ++ time_clauses E "lectures" rq)%list /\
  map snd sec = (place_clauses "sections" rq ++ time_clauses E "sections" rq)%list.
Proof.
  unfold nested_queries, place_clauses, time_clauses, clause_of, first_of, py_to,
    py_minutes.
  rewrite !has_key.
  destruct (rq !! "building") as [[|b ?] |]; simpl; try discriminate;
    [destruct b; simpl; try discriminate |];
    (destruct (rq !! "room") as [[|r ?] |]; simpl; try discriminate;
     [destruct r; simpl; try discriminate |]);
    (destruct (rq !! "datetime") as [[|[] ?] |]; simpl; try discriminate;
     [| intros H; inversion H; split; reflexivity];
     destruct (arrow_to E "America/New_York" a) as [a' | ?]; simpl; try discriminate;
     destruct (rq !! "timespan") as [[|[] ?] |]; simpl; try discriminate;
     destruct (datetime_add_minutes (arrow_datetime a') n) as [sh | ?]; simpl;
     try discriminate;
     intros H; inversion H; split; reflexivity).
Qed.

(** The query [generate_query] returns is the one its clauses describe. *)
Lemma generate_query_spec (self : Searcher) (q : Query) :
  is_Some (_index self) ->
  CourseSearcher_generate_query E self = Ok q ->
  q = course_query E (raw_query self).
Proof.
  intros Hi. unfold CourseSearcher_generate_query. intros H.
  apply bind_ok in H. destruct H as (q1 & H1 & H).
  apply bind_ok in H. destruct H as (q2 & H2 & H).
  apply bind_ok in H. destruct H as ([l s] & H3 & H).
  apply bind_ok in H. destruct H as ([lec sec] & H4 & H).
  apply text_clauses_spec in H1. apply courseid_clause_spec in H2; [| assumption].
  apply name_queries_spec in H3. destruct H3 as [-> ->].
  apply nested_queries_spec in H4. destruct H4 as [Hl Hs].
  inversion H; subst. unfold course_query, course_clauses, and_all.
  rewrite fold_left_app, !combine_all_and_all, Hl, Hs. reflexivity.
Qed.

Lemma set_index_is_Some (value : option string) :
  is_Some (CourseSearcher_set_index E value).
Proof.
  unfold CourseSearcher_set_index. destruct value as [v |]; [| eauto].
  destruct (String.eqb v "current"); [eauto |]. destruct (match_semester v); eauto.
Qed.

Lemma first_is_ok (rq : raw_query_t) (k : string) (p : pyval -> bool) :
  first_is rq k p = true ->
  rq !! k = None \/ exists x l, rq !! k = Some (x :: l) /\ p x = true.
Proof.
  unfold first_is. destruct (rq !! k) as [[|x l] |]; intros H;
    [discriminate | right; eauto | left; reflexivity].
Qed.

Lemma join_space_total (l : list pyval) :
  forallb is_str l = true -> exists s, join_space l = Ok s.
Proof.
  induction l as [|v l IH]; simpl; [eauto |].
  intros H. apply andb_prop in H. destruct H as [Hv Hl].
  destruct v; try discriminate. destruct (IH Hl) as [r Hr].
  destruct l; [eauto |]. rewrite Hr. simpl. eauto.
Qed.

Lemma text_clauses_total (rq : raw_query_t) (query : Query) :
  first_is rq "text" (fun _ => true) = true ->
  match rq !! "text" with
  | Some _ => true
  | None => first_is rq "name" (fun _ => true) && first_is rq "desc" (fun _ => true)
  end = true ->
  exists q, text_clauses rq query = Ok q.
Proof.
  unfold text_clauses, first_is, first_of. rewrite !has_key.
  destruct (rq !! "text") as [[|t ?] |]; simpl; try discriminate; [eauto |].
  intros _ H. apply andb_prop in H. destruct H as [Hn Hd].
  destruct (rq !! "name") as [[|? ?] |]; simpl; try discriminate;
    destruct (rq !! "desc") as [[|? ?] |]; simpl; try discriminate; eauto.
Qed.

Lemma courseid_clause_total (self : Searcher) (query : Query) :
  first_is (raw_query self) "courseid" (fun _ => true) = true ->
  exists q, courseid_clause E self query = Ok q.
Proof.
  unfold courseid_clause, first_is, first_of. rewrite has_key.
  destruct (raw_query self !! "courseid") as [[|? ?] |]; simpl; try discriminate; eauto.
Qed.

Lemma name_queries_total (rq : raw_query_t) :
  match rq !! "instructor" with
  | Some l => forallb is_str l
  | None => true
  end = true ->
  exists p, name_queries rq = Ok p.
Proof.
  unfold name_queries. rewrite !has_key.
  destruct (rq !! "instructor") as [l |]; [| eauto].
  intros H. destruct (join_space_total l H) as [s ->]. simpl. eauto.
Qed.

Lemma nested_queries_total (rq : raw_query_t) :
  first_is rq "building" is_str = true ->
  first_is rq "room" is_str = true ->
  match rq !! "datetime" with
  | None => true
  | Some (VArrow a :: _) =>
      match arrow_to E "America/New_York" a, rq !! "timespan" with
      | Ok a', Some (VInt n :: _) => is_ok (datetime_add_minutes (arrow_datetime a') n)
      | _, _ => false
      end
  | Some _ => false
  end = true ->
  exists p, nested_queries E rq = Ok p.
Proof.
  unfold nested_queries, first_is, first_of, py_to, py_minutes. rewrite !has_key.
  destruct (rq !! "building") as [[|[] ?] |]; simpl; try discriminate; intros _;
    (destruct (rq !! "room") as [[|[] ?] |]; simpl; try discriminate; intros _);
    (destruct (rq !! "datetime") as [[|[] ?] |]; simpl; try discriminate; [| eauto];
     destruct (arrow_to E "America/New_York" a) as [a' | ?]; simpl; try discriminate;
     destruct (rq !! "timespan") as [[|[] ?] |]; simpl; try discriminate;
     destruct (datetime_add_minutes (arrow_datetime a') n) as [sh | ?]; simpl;
     try discriminate; eauto).
Qed.

(** On a well-formed raw query [generate_query] returns a query. *)
Lemma generate_query_total (self : Searcher) :
  well_formed E (raw_query self) = true ->
  is_ok (CourseSearcher_generate_query E self) = true.
Proof.
  unfold well_formed. intros H.
  repeat (apply andb_prop in H; destruct H as [H ?]).
  unfold CourseSearcher_generate_query.
  destruct (text_clauses_total (raw_query self) Q0) as [q1 ->]; try assumption.
  simpl. destruct (courseid_clause_total self q1) as [q2 ->]; try assumption.
  simpl. destruct (name_queries_total (raw_query self)) as [[l s] ->]; try assumption.
  simpl. destruct (nested_queries_total (raw_query self)) as [[lec sec] ->];
    try assumption.
  reflexivity.
Qed.

Lemma isoweekday_mod_7 (d : date) :
  0 <= isoweekday d mod 7 <= 6 /\
  (isoweekday d mod 7 = 0 <-> isoweekday d = 7) /\
  (isoweekday d <> 7 -> isoweekday d mod 7 = isoweekday d).
Proof.
  unfold isoweekday. cbv zeta. pose proof (Z.mod_pos_bound (toordinal d) 7 ltac:(lia)) as Hb.
  destruct (Z.eqb_spec (toordinal d mod 7) 0) as [Heq | Hne].
  - change (7 mod 7) with 0. lia.
  - rewrite Z.mod_mod by lia. lia.
Qed.

(** The time of day of [dt + timedelta(minutes=n)] is that of [dt] moved
    by [n] minutes, around the clock. *)
Lemma datetime_add_minutes_time (dt shifted : datetime) (n : Z) :
  valid_time (dt_time dt) = true ->
  datetime_add_minutes dt n = Ok shifted ->
  hour (dt_time shifted) * 60 + minute (dt_time shifted)
  = (hour (dt_time dt) * 60 + minute (dt_time dt) + n) mod 1440.
Proof.
  unfold valid_time, datetime_add_minutes. intros Hv.
  repeat (apply andb_prop in Hv; destruct Hv as [Hv ?]).
  destruct (_ && _); [| discriminate]. intros Hsh; inversion Hsh; subst; clear Hsh.
  cbn [dt_time hour minute].
  set (t := dt_time dt) in *.
  assert (Hs : 0 <= second t < 60) by lia.
  replace (hour t * 3600 + minute t * 60 + second t + n * 60)
    with ((hour t * 60 + minute t + n) * 60 + second t) by lia.
  revert Hs. generalize (second t). generalize (hour t * 60 + minute t + n).
  clear. intros k s Hs.
  Z.div_mod_to_equations. lia.
Qed.

Lemma time_clauses_window (path : string) (rq : raw_query_t)
  (a a' : Arrow) (r1 r2 : list pyval) (n : Z) (shifted : datetime) :
  rq !! "datetime" = Some (VArrow a :: r1) ->
  rq !! "timespan" = Some (VInt n :: r2) ->
  arrow_to E "America/New_York" a = Ok a' ->
  datetime_add_minutes (arrow_datetime a') n = Ok shifted ->
  time_clauses E path rq
  = [time_query path (isoweekday (dt_date (arrow_datetime a')) mod 7)
       (strftime_IMp (dt_time shifted)) (strftime_IMp (dt_time (arrow_datetime a')))].
Proof. intros Hd Ht Ha Hs. unfold time_clauses. rewrite Hd, Ht, Ha, Hs. reflexivity. Qed.

Lemma and_all_snoc (l : list Query) (q : Query) :
  and_all (l ++ [q]) = QAnd (and_all l) q.
Proof. unfold and_all. rewrite fold_left_app. reflexivity. Qed.


(** C8: whatever the raw query holds, the generated query is a conjunction
    whose last member is a [bool] query with one [must]: the disjunction of
    a nested query on path [lectures], around a nested query on path
    [lectures.times], and of a nested query on path [sections], around a
    nested query on path [sections.times], each with [inner_hits]. Without
    an instructor the inner queries stand alone with [Q()]; without
    building, room and datetime the inner queries hold [Q()]. *)
Theorem nested_disjunction (self : Searcher) :
  (well_formed E (raw_query self) = true ->
   is_ok (CourseSearcher_generate_query E self) = true) /\
  (forall q, CourseSearcher_generate_query E self = Ok q ->
     exists query lec_times lec_name sec_times sec_name,
       q = QAnd query
             (Q "bool"
                [("must",
                  PQueries
                    [QOr (Q "nested"
                            [("query",
                              PQuery (QAnd (Q "nested"
                                              [("query", PQuery lec_times);
                                               ("path", PVal (VStr "lectures.times"))])
                                           lec_name));
                             ("path", PVal (VStr "lectures"));
                             ("inner_hits", PVal (VDict []))])
                         (Q "nested"
                            [("query",
                              PQuery (QAnd (Q "nested"
                                              [("query", PQuery sec_times);
                                               ("path", PVal (VStr "sections.times"))])
                                           sec_name));
                             ("path", PVal (VStr "sections"));
                             ("inner_hits", PVal (VDict []))])])]) /\
       (raw_query self !! "instructor" = None -> lec_name = Q0 /\ sec_name = Q0) /\
       (raw_query self !! "building" = None -> raw_query self !! "room" = None ->
        raw_query self !! "datetime" = None -> lec_times = Q0 /\ sec_times = Q0)).
Proof.
  split; [apply generate_query_total |].
  intros q H. unfold CourseSearcher_generate_query in H.
  apply bind_ok in H. destruct H as (q1 & H1 & H).
  apply bind_ok in H. destruct H as (q2 & H2 & H).
  apply bind_ok in H. destruct H as ([l s] & H3 & H).
  apply bind_ok in H. destruct H as ([lec sec] & H4 & H).
  apply name_queries_spec in H3. destruct H3 as [Hln Hsn].
  apply nested_queries_spec in H4. destruct H4 as [Hl Hs].
  inversion H; subst q; clear H.
  exists q2, (combine_all lec), l, (combine_all sec), s.
  split; [reflexivity |]. split.
  - intros Hi. subst l s. unfold instructor_clause. rewrite Hi. split; reflexivity.
  - intros Hb Hr Hd. rewrite !combine_all_and_all, Hl, Hs.
    unfold place_clauses, time_clauses, clause_of. rewrite Hb, Hr, Hd.
    split; reflexivity.
Qed.

Lemma generate_query_same_lookups (self self' : Searcher) :
  _index self' = _index self ->
  is_Some (raw_query self !! "text") ->
  (forall k, k <> "name" -> k <> "desc" -> raw_query self' !! k = raw_query self !! k) ->
  CourseSearcher_generate_query E self' = CourseSearcher_generate_query E self.
Proof.
  intros Hi [t Ht] Hsame.
  unfold CourseSearcher_generate_query, text_clauses, courseid_clause, name_queries,
    nested_queries, first_of.
  rewrite Hi.
  rewrite !(Hsame "text"), !(Hsame "courseid"), !(Hsame "instructor"),
    !(Hsame "instructor_fuzzy"), !(Hsame "building"), !(Hsame "room"),
    !(Hsame "datetime"), !(Hsame "timespan") by discriminate.
  rewrite Ht, !has_key. reflexivity.
Qed.

Lemma fce_generate_query_spec (self : Searcher) (q : Query) :
  FCESearcher_generate_query self = Ok q -> q = and_all (fce_clauses (raw_query self)).
Proof.
  unfold FCESearcher_generate_query, fce_clauses, clause_of, first_of, and_all.
  rewrite !has_key.
  destruct (raw_query self !! "courseid") as [[|c ?] |]; simpl; try discriminate;
    destruct (raw_query self !! "instructor") as [[|i ?] |]; simpl; try discriminate;
    intros H; inversion H; reflexivity.
Qed.

Lemma fce_generate_query_total (self : Searcher) :
  first_is (raw_query self) "courseid" (fun _ => true) = true ->
  first_is (raw_query self) "instructor" (fun _ => true) = true ->
  is_ok (FCESearcher_generate_query self) = true.
Proof.
  unfold FCESearcher_generate_query, first_is, first_of. rewrite !has_key.
  destruct (raw_query self !! "courseid") as [[|c ?] |]; simpl; try discriminate;
    destruct (raw_query self !! "instructor") as [[|i ?] |]; simpl; try discriminate;
    reflexivity.
Qed.


End Queries.


Lemma nested_disjunction_witness :
  CourseSearcher_generate_query sample_env (CourseSearcher_init sample_env ∅ None 5)
  = Ok (QAnd Q0
          (Q "bool"
             [("must",
               PQueries
                 [QOr (Q "nested"
                         [("query",
                           PQuery (QAnd (Q "nested"
                                           [("query", PQuery Q0);
                                            ("path", PVal (VStr "lectures.times"))])
                                        Q0));
                          ("path", PVal (VStr "lectures"));
                          ("inner_hits", PVal (VDict []))])
                      (Q "nested"
                         [("query",
                           PQuery (QAnd (Q "nested"
                                           [("query", PQuery Q0);
                                            ("path", PVal (VStr "sections.times"))])
                                        Q0));
                          ("path", PVal (VStr "sections"));
                          ("inner_hits", PVal (VDict []))])])])).
Proof.
  destruct (nested_disjunction sample_env (CourseSearcher_init sample_env ∅ None 5))
    as [Htotal Hshape].
  assert (Hw : well_formed sample_env
                 (raw_query (CourseSearcher_init sample_env ∅ None 5)) = true)
    by (vm_compute; reflexivity).
  specialize (Htotal Hw).
  destruct (CourseSearcher_generate_query sample_env
              (CourseSearcher_init sample_env ∅ None 5)) as [q | e] eqn:Hq;
    [| discriminate Htotal].
  destruct (Hshape q eq_refl) as (query & lt & ln & st & sn & Hs & Hn & Ht).
  destruct (Hn eq_refl) as [-> ->].
  destruct (Ht eq_refl eq_refl eq_refl) as [-> ->].
  rewrite Hs. vm_compute in Hq. rewrite Hs in Hq. inversion Hq; subst. reflexivity.
Defined.


(** ** Responses and outputs *)

Section Formatting.

(** The list of the output is under a key other than [response]:
    [courses] or [fces]. *)
Variable key : string.
Hypothesis Hkey : String.eqb key "response" = false.

Lemma dict_append_second (x v : pyval) (l : list pyval) :
  dict_append key v [("response", x); (key, VList l)]
  = Ok [("response", x); (key, VList (l ++ [v])%list)].
Proof.
  unfold dict_append. cbn [dict_get]. rewrite Hkey, String.eqb_refl.
  cbn [dict_set]. rewrite Hkey, String.eqb_refl. reflexivity.
Qed.

Lemma append_hits_response (x : pyval) (hits : list Hit) (l : list pyval) :
  append_hits key (map IHit hits) [("response", x); (key, VList l)]
  = Ok [("response", x);
        (key, VList (l ++ map (fun h => VDict (hit_to_dict h)) hits)%list)].
Proof.
  revert l. induction hits as [|h hits IH]; intros l; simpl.
  - rewrite app_nil_r. reflexivity.
  - rewrite dict_append_second. cbn [bind].
    rewrite IH, <- app_assoc. reflexivity.
Qed.

Lemma append_hits_values (vs : list pyval) (output out : pydict) :
  append_hits key (map IValue vs) output = Ok out -> vs = [] /\ out = output.
Proof.
  destruct vs; simpl; intros H; [inversion H; auto | discriminate].
Qed.

Lemma format_output_response (r : Response) :
  format_output key [("response", VDict []); (key, VList [])] (RResponse r)
  = Ok [("response", VDict (resp_to_dict r));
        (key, VList (map (fun h => VDict (hit_to_dict h)) (resp_hits r)))].
Proof. unfold format_output. simpl. apply (append_hits_response _ _ []). Qed.

Lemma has_error_dict (response : response) :
  has_error response = true ->
  exists d status, response = RValue (VDict d) /\
                   dict_get "status" d = Some status /\ status <> VNone.
Proof.
  unfold has_error. destruct response as [r | []]; try discriminate.
  destruct (dict_get "status" d) as [[] |] eqn:Hs; try discriminate;
    intros _; eexists _, _; (split; [reflexivity | split; [exact Hs | discriminate]]).
Qed.

Lemma has_error_status (d : pydict) (status : pyval) :
  dict_get "status" d = Some status -> status <> VNone ->
  has_error (RValue (VDict d)) = true.
Proof.
  intros Hs Hn. unfold has_error. rewrite Hs. destruct status; congruence.
Qed.

Lemma format_output_error (response : response) (d : pydict) :
  response = RValue (VDict d) -> has_error response = true ->
  format_output key [("response", VDict []); (key, VList [])] response
  = Ok [("response", VDict d); (key, VList [])].
Proof.
  intros -> He. unfold format_output. rewrite He. reflexivity.
Qed.

(** Whenever [format_output] returns, it returns the two keys, a dict and
    a list. *)
Lemma format_output_returns (response : response) (out : pydict) :
  format_output key [("response", VDict []); (key, VList [])] response = Ok out ->
  exists rd l,
    response_to_dict response = Ok rd /\
    out = [("response", VDict rd); (key, VList l)] /\
    (has_error response = true -> l = []) /\
    (forall r, response = RResponse r ->
       l = map (fun h => VDict (hit_to_dict h)) (resp_hits r)).
Proof.
  destruct response as [r | v].
  - rewrite format_output_response. intros H; inversion H; subst.
    eexists _, _. split; [reflexivity |]. split; [reflexivity |].
    split; [discriminate |]. intros r' Hr; inversion Hr; reflexivity.
  - destruct v; try (unfold format_output; simpl; discriminate).
    unfold format_output. cbn [response_to_dict bind py_iter].
    destruct (has_error (RValue (VDict d))) eqn:He.
    + intros H; inversion H; subst. eexists _, _.
      split; [reflexivity |]. split; [reflexivity |]. split; [reflexivity | discriminate].
    + unfold dict_keys. rewrite map_map.
      rewrite <- (map_map (fun kv => VStr (fst kv)) IValue).
      intros H. apply append_hits_values in H. destruct H as [_ ->].
      eexists _, _. split; [reflexivity |]. split; [reflexivity |].
      split; [discriminate | discriminate].
Qed.

End Formatting.

(** C5, as stated, fails on an exception whose info has no [status]: the
    info comes back from [fetch], [has_error] is false on it, and the
    formatting functions raise. *)
Lemma fetch_error_without_status :
  fetch forbidden_env Q0 (Some "course-*") 5 (Some "course") None
  = ([MkRequest (Some "course-*") (Some "course") Q0 5 []], Ok (RValue forbidden_info)) /\
  has_error (RValue forbidden_info) = false /\
  format_courses_output (RValue forbidden_info) = Raise AttributeError /\
  format_fces_output (RValue forbidden_info) = Raise AttributeError.
Proof. repeat split. Qed.

(** C5, amended: when the backend raises NotFoundError, RequestError or
    TransportError, [fetch] returns the info of the exception; when that
    info is a dict with a [status] that is not [None], [has_error] is true
    and the formatting functions return it as the [response] of the output,
    with an empty list. *)
Theorem fetch_passes_error_info (E : Env) (query : Query) (index : option string)
  (size : Z) (doc_type : option string) (sort : option (list string)) (info : pyval) :
  let req := MkRequest index doc_type query size
               (match sort with Some l => l | None => [] end) in
  es_execute E req = RaisedNotFoundError info \/
  es_execute E req = RaisedRequestError info \/
  es_execute E req = RaisedTransportError info ->
  fetch E query index size doc_type sort = ([req], Ok (RValue info)) /\
  (forall d status,
     info = VDict d -> dict_get "status" d = Some status -> status <> VNone ->
     has_error (RValue info) = true /\
     format_courses_output (RValue info)
     = Ok [("response", VDict d); ("courses", VList [])] /\
     format_fces_output (RValue info)
     = Ok [("response", VDict d); ("fces", VList [])]).
Proof.
  intros req Hraise. split.
  - unfold fetch. fold req. destruct Hraise as [-> | [-> | ->]]; reflexivity.
  - intros d status -> Hs Hn.
    pose proof (has_error_status d status Hs Hn) as He.
    split; [exact He |].
    split; apply format_output_error; auto.
Qed.

Lemma fetch_passes_error_info_witness :
  fetch not_found_env Q0 (Some "course-f17") 5 (Some "course") None
  = ([MkRequest (Some "course-f17") (Some "course") Q0 5 []], Ok (RValue not_found_info)) /\
  has_error (RValue not_found_info) = true /\
  format_courses_output (RValue not_found_info)
  = Ok [("response", not_found_info); ("courses", VList [])].
Proof.
  destruct (fetch_passes_error_info not_found_env Q0 (Some "course-f17") 5
              (Some "course") None not_found_info (or_introl eq_refl))
    as [Hfetch Hfmt].
  split; [exact Hfetch |].
  destruct (Hfmt _ (VInt 404) eq_refl eq_refl) as (He & Hc & _); [discriminate |].
  split; [exact He | exact Hc].
Defined.

(** C7, as stated, fails on the same kind of response: for the info of an
    exception without [status], no output is returned at all. *)
Lemma format_output_raises :
  outcome (fetch forbidden_env Q0 (Some "course-*") 100 (Some "course") None)
  = Ok (RValue forbidden_info) /\
  format_courses_output (RValue forbidden_info) = Raise AttributeError /\
  format_fces_output (RValue forbidden_info) = Raise AttributeError /\
  outcome (get_courses_by_instructor forbidden_env (VStr "ada") false None 100)
  = Raise AttributeError.
Proof. repeat split; vm_compute; reflexivity. Qed.

(** C7, amended: whenever a formatting function returns, the output has
    exactly the keys [response], a dict, and [courses] (or [fces]), a list;
    the list is empty when the response is an error and holds one dict per
    hit, in order, when the response is a response object. The functions
    do return on every response object and on every error. *)
Theorem output_shape (response : response) :
  (forall out, format_courses_output response = Ok out ->
     exists rd l,
       out = [("response", VDict rd); ("courses", VList l)] /\
       dict_keys out = ["response"; "courses"] /\
       response_to_dict response = Ok rd /\
       (has_error response = true -> l = []) /\
       (forall r, response = RResponse r ->
          l = map (fun h => VDict (hit_to_dict h)) (resp_hits r))) /\
  (forall out, format_fces_output response = Ok out ->
     exists rd l,
       out = [("response", VDict rd); ("fces", VList l)] /\
       dict_keys out = ["response"; "fces"] /\
       response_to_dict response = Ok rd /\
       (has_error response = true -> l = []) /\
       (forall r, response = RResponse r ->
          l = map (fun h => VDict (hit_to_dict h)) (resp_hits r))) /\
  ((exists r, response = RResponse r) \/ has_error response = true ->
   is_ok (format_courses_output response) = true /\
   is_ok (format_fces_output response) = true).
Proof.
  split; [| split].
  - intros out H. apply format_output_returns in H; [| reflexivity].
    destruct H as (rd & l & Hrd & -> & He & Hr). exists rd, l. auto.
  - intros out H. apply format_output_returns in H; [| reflexivity].
    destruct H as (rd & l & Hrd & -> & He & Hr). exists rd, l. auto.
  - intros [[r ->] | He].
    + unfold format_courses_output, format_fces_output, init_courses_output,
        init_fces_output.
      rewrite !format_output_response by reflexivity. split; reflexivity.
    + destruct (has_error_dict response He) as (d & status & Hd & _).
      unfold format_courses_output, format_fces_output, init_courses_output,
        init_fces_output.
      rewrite !(format_output_error _ response d Hd He). split; reflexivity.
Qed.

Lemma output_shape_witness :
  format_courses_output (RResponse two_hits_response)
  = Ok [("response", VDict [("hits", VDict [("total", VInt 2)])]);
        ("courses", VList [VDict [("id", VStr "15-112")]; VDict [("id", VStr "15-122")]])] /\
  format_fces_output (RValue not_found_info)
  = Ok [("response", not_found_info); ("fces", VList [])].
Proof.
  split.
  - destruct (output_shape (RResponse two_hits_response)) as (Hc & _ & Htotal).
    destruct (Htotal (or_introl (ex_intro _ two_hits_response eq_refl))) as [Hok _].
    destruct (format_courses_output (RResponse two_hits_response)) as [out | e];
      [| discriminate Hok].
    destruct (Hc out eq_refl) as (rd & l & -> & _ & Hrd & _ & Hl).
    rewrite (Hl two_hits_response eq_refl). inversion Hrd; subst. reflexivity.
  - destruct (output_shape (RValue not_found_info)) as (_ & Hf & Htotal).
    destruct (Htotal (or_intror eq_refl)) as [_ Hok].
    destruct (format_fces_output (RValue not_found_info)) as [out | e];
      [| discriminate Hok].
    destruct (Hf out eq_refl) as (rd & l & -> & _ & Hrd & He & _).
    rewrite (He eq_refl). inversion Hrd; subst. reflexivity.
Defined.

(** ** The operations *)

Lemma fetch_backend_dict (E : Env) (query : Query) (index : option string) (size : Z)
  (doc_type : option string) (sort : option (list string)) (response : response)
  (rd : pydict) :
  outcome (fetch E query index size doc_type sort) = Ok response ->
  response_to_dict response = Ok rd ->
  exists req, calls (fetch E query index size doc_type sort) = [req] /\
              backend_dict E req rd.
Proof.
  unfold fetch, outcome, calls, backend_dict. cbn [fst snd]. intros Hf Hrd.
  eexists. split; [reflexivity |].
  destruct (es_execute E _) as [r | info | info | info |];
    inversion Hf; subst; cbn in Hrd;
    try (destruct info; try discriminate); inversion Hrd; reflexivity.
Qed.

Lemma formatted_from_backend (E : Env) (generate_query : Searcher -> result Query)
  (self : Searcher) (key : string) (out : pydict) :
  String.eqb key "response" = false ->
  outcome (run_bind (execute E generate_query self) (fun response =>
           run_ret (format_output key [("response", VDict []); (key, VList [])] response)))
  = Ok out ->
  response_from_backend E
    (run_bind (execute E generate_query self) (fun response =>
     run_ret (format_output key [("response", VDict []); (key, VList [])] response)))
    out.
Proof.
  intros Hk. rewrite execute_run. unfold response_from_backend.
  destruct (generate_query self) as [q | e]; [| discriminate].
  destruct (fetch E q (_index self) (size self) (doc_type self) (sort self))
    as [cs [response | e]] eqn:Hf; [| discriminate].
  unfold outcome, calls, run_bind, run_ret. cbn [fst snd]. intros H.
  apply format_output_returns in H; [| assumption].
  destruct H as (rd & l & Hrd & -> & _).
  destruct (fetch_backend_dict E q (_index self) (size self) (doc_type self)
              (sort self) response rd) as (req & Hc & Hb).
  { rewrite Hf. reflexivity. }
  { assumption. }
  rewrite Hf in Hc. cbn in Hc. subst cs.
  exists req, rd. rewrite app_nil_r. auto.
Qed.

Lemma search_courses_from_backend (E : Env) (rq : raw_query_t) (index : option string)
  (size : Z) (out : pydict) :
  outcome (search_courses E rq index size) = Ok out ->
  response_from_backend E (search_courses E rq index size) out.
Proof. apply (formatted_from_backend E _ _ "courses"). reflexivity. Qed.

Lemma search_fces_from_backend (E : Env) (rq : raw_query_t) (size : Z) (out : pydict) :
  outcome (search_fces E rq size) = Ok out ->
  response_from_backend E (search_fces E rq size) out.
Proof. apply (formatted_from_backend E _ _ "fces"). reflexivity. Qed.

Lemma get_course_by_id_from_backend (E : Env) (courseid : string)
  (term : option string) (out : pydict) :
  outcome (get_course_by_id E courseid term) = Ok out ->
  get_course_by_id E courseid term = ([], Ok [("response", VDict []); ("course", VNone)]) \/
  response_from_backend E (get_course_by_id E courseid term) out.
Proof.
  unfold get_course_by_id. destruct (match_courseid courseid); [| left; reflexivity].
  intros H. right. revert H. rewrite execute_run. unfold response_from_backend.
  match goal with |- context [ match ?g with Ok _ => _ | Raise _ => _ end ] =>
    destruct g as [q | e] end; [| discriminate].
  match goal with |- context [ fetch E q ?i ?s ?d ?o ] =>
    destruct (fetch E q i s d o) as [cs [response | e]] eqn:Hf;
    [pose proof (fetch_backend_dict E q i s d o response) as Hfb | discriminate] end.
  rewrite Hf in Hfb. unfold outcome, calls, run_bind, run_ret in *. cbn [fst snd] in *.
  destruct (response_to_dict response) as [rd | e] eqn:Hrd; [| discriminate].
  destruct (Hfb rd eq_refl eq_refl) as (req & -> & Hb).
  cbn [bind]. intros H. exists req, rd. split; [reflexivity |]. split; [assumption |].
  destruct (has_error response); [inversion H; reflexivity |].
  destruct response as [r | v]; [| discriminate].
  destruct (negb (hits_total r =? 0)); [| inversion H; reflexivity].
  destruct (subscript0 (resp_hits r)); [| discriminate].
  inversion H. reflexivity.
Qed.

Lemma mark_not_found_shape (rd : pydict) (l : list pyval) :
  mark_not_found [("response", VDict rd); ("courses", VList l)]
  = Ok (match l with
        | [] => [("response", VDict (dict_set "status" (VInt 404) rd));
                 ("courses", VList [])]
        | _ :: _ => [("response", VDict rd); ("courses", VList l)]
        end).
Proof. destruct l; reflexivity. Qed.

Lemma get_courses_by_id_from_backend (E : Env) (courseid : string) (out : pydict) :
  outcome (get_courses_by_id E courseid) = Ok out ->
  get_courses_by_id E courseid = ([], Ok init_courses_output) \/
  exists req rd,
    calls (get_courses_by_id E courseid) = [req] /\ backend_dict E req rd /\
    ((dict_get "courses" out <> Some (VList []) /\
      dict_get "response" out = Some (VDict rd)) \/
     (dict_get "courses" out = Some (VList []) /\
      dict_get "response" out = Some (VDict (dict_set "status" (VInt 404) rd)))).
Proof.
  unfold get_courses_by_id. destruct (match_courseid courseid); [| left; reflexivity].
  intros H. right. revert H. rewrite execute_run.
  match goal with |- context [ match ?g with Ok _ => _ | Raise _ => _ end ] =>
    destruct g as [q | e] end; [| discriminate].
  match goal with |- context [ fetch E q ?i ?s ?d ?o ] =>
    destruct (fetch E q i s d o) as [cs [response | e]] eqn:Hf;
    [pose proof (fetch_backend_dict E q i s d o response) as Hfb | discriminate] end.
  rewrite Hf in Hfb. unfold outcome, calls, run_bind, run_ret in *. cbn [fst snd] in *.
  destruct (format_courses_output response) as [output | e] eqn:Hfmt; [| discriminate].
  apply format_output_returns in Hfmt; [| reflexivity].
  destruct Hfmt as (rd & l & Hrd & -> & _).
  destruct (Hfb rd eq_refl Hrd) as (req & -> & Hb).
  cbn [bind]. rewrite mark_not_found_shape. intros H. inversion H; subst out; clear H.
  exists req, rd. split; [reflexivity |]. split; [assumption |].
  destruct l; [right | left]; split; try reflexivity. discriminate.
Qed.




Lemma generate_courseid_query (E : Env) (courseid : string) (index : option string)
  (size : Z) :
  CourseSearcher_generate_query E
    (CourseSearcher_init E {[ "courseid" := [VStr courseid] ]} index size)
  = Ok (courseid_query courseid).
Proof.
  destruct (set_index_is_Some E index) as [i Hi].
  unfold CourseSearcher_generate_query, CourseSearcher_init, courseid_clause.
  cbn [raw_query _index]. rewrite Hi. vm_compute. reflexivity.
Qed.

(** C10: for a course id that is not two digits, a dash and three digits,
    both functions return their initial output, with an empty [response]
    and so without a status, and issue no request; for a course id of
    that form and a response without hits, [get_courses_by_id] returns the
    response with [status] set to 404. *)
Theorem malformed_courseid (E : Env) (courseid : string) :
  (match_courseid courseid = false ->
   (forall term,
      get_course_by_id E courseid term
      = ([], Ok [("response", VDict []); ("course", VNone)])) /\
   get_courses_by_id E courseid
   = ([], Ok [("response", VDict []); ("courses", VList [])])) /\
  (match_courseid courseid = true ->
   forall r,
     let req := MkRequest (Some (ES_COURSE_INDEX_PREFIX E +:+ "*")) (Some "course")
                  (courseid_query courseid) 5 [] in
     es_execute E req = Executed r -> resp_hits r = [] ->
     get_courses_by_id E courseid
     = ([req], Ok [("response", VDict (dict_set "status" (VInt 404) (resp_to_dict r)));
                   ("courses", VList [])])).
Proof.
  split.
  - intros Hm. unfold get_course_by_id, get_courses_by_id. rewrite Hm.
    split; reflexivity.
  - intros Hm r req Hr Hh. unfold get_courses_by_id. rewrite Hm, execute_run.
    rewrite generate_courseid_query. unfold fetch.
    cbn [_index size doc_type sort CourseSearcher_init CourseSearcher_set_index].
    unfold CourseSearcher_default_size. fold req. rewrite Hr.
    unfold run_bind, run_ret. cbn [app]. f_equal.
    unfold format_courses_output, init_courses_output.
    rewrite format_output_response by reflexivity. rewrite Hh. reflexivity.
Qed.

Lemma malformed_courseid_witness :
  get_courses_by_id sample_env "15112"
  = ([], Ok [("response", VDict []); ("courses", VList [])]) /\
  (exists req,
     get_courses_by_id sample_env "15-112"
     = ([req], Ok [("response",
                    VDict [("hits", VDict [("total", VInt 0); ("hits", VList [])]);
                           ("status", VInt 404)]);
                   ("courses", VList [])])).
Proof.
  split.
  - destruct (malformed_courseid sample_env "15112") as [Hbad _].
    destruct (Hbad eq_refl) as [_ Hcourses]. exact Hcourses.
  - destruct (malformed_courseid sample_env "15-112") as [_ Hgood].
    eexists. apply (Hgood eq_refl sample_response eq_refl eq_refl).
Defined.

(** ** Strings of [utils.py] *)

Lemma lower_char_idem (c : ascii) : lower_char (lower_char c) = lower_char c.
Proof. ascii_cases c. Qed.

Lemma lower_char_space (c : ascii) : is_space (lower_char c) = is_space c.
Proof. ascii_cases c. Qed.

Lemma string_map_map (f g : ascii -> ascii) (s : string) :
  string_map f (string_map g s) = string_map (fun c => f (g c)) s.
Proof. induction s as [|c s IH]; simpl; [reflexivity | rewrite IH; reflexivity]. Qed.

Lemma string_map_ext (f g : ascii -> ascii) (s : string) :
  (forall c, f c = g c) -> string_map f s = string_map g s.
Proof. intros H. induction s as [|c s IH]; simpl; [reflexivity | rewrite H, IH; reflexivity]. Qed.

Lemma string_map_fixed (f : ascii -> ascii) (s : string) :
  string_forallb (fun c => Ascii.eqb (f c) c) s = true -> string_map f s = s.
Proof.
  induction s as [|c s IH]; simpl; [reflexivity |].
  intros H. apply andb_prop in H. destruct H as [Hc Hs].
  apply Ascii.eqb_eq in Hc. rewrite Hc, IH by assumption. reflexivity.
Qed.

Lemma string_map_empty (f : ascii -> ascii) (s : string) :
  string_map f s = EmptyString -> s = EmptyString.
Proof. destruct s; simpl; [reflexivity | discriminate]. Qed.

Lemma string_forallb_impl (p q : ascii -> bool) (s : string) :
  (forall c, p c = true -> q c = true) ->
  string_forallb p s = true -> string_forallb q s = true.
Proof.
  intros Hpq. induction s as [|c s IH]; simpl; [reflexivity |].
  intros H. apply andb_prop in H. destruct H as [Hc Hs].
  rewrite (Hpq c Hc), IH by assumption. reflexivity.
Qed.

Lemma string_forallb_and (p q : ascii -> bool) (s : string) :
  string_forallb (fun c => p c && q c) s = string_forallb p s && string_forallb q s.
Proof.
  induction s as [|c s IH]; simpl; [reflexivity |]. rewrite IH.
  destruct (p c), (q c), (string_forallb p s); reflexivity.
Qed.

Lemma string_forallb_map (p : ascii -> bool) (f : ascii -> ascii) (s : string) :
  string_forallb p (string_map f s) = string_forallb (fun c => p (f c)) s.
Proof. induction s as [|c s IH]; simpl; [reflexivity | rewrite IH; reflexivity]. Qed.

Lemma lower_idem (s : string) : lower (lower s) = lower s.
Proof.
  unfold lower. rewrite string_map_map. apply string_map_ext, lower_char_idem.
Qed.

(** *** Stripping *)

Lemma rstrip_cons (c : ascii) (s : string) :
  rstrip (String c s)
  = if String.eqb (rstrip s) EmptyString && is_space c then EmptyString
    else String c (rstrip s).
Proof.
  simpl. destruct (rstrip s); simpl; [destruct (is_space c) |]; reflexivity.
Qed.

Lemma lstrip_idem (s : string) : lstrip (lstrip s) = lstrip s.
Proof.
  induction s as [|c s IH]; simpl; [reflexivity |].
  destruct (is_space c) eqn:Hc; [exact IH | simpl; rewrite Hc; reflexivity].
Qed.

Lemma rstrip_idem (s : string) : rstrip (rstrip s) = rstrip s.
Proof.
  induction s as [|c s IH]; [reflexivity |].
  rewrite rstrip_cons.
  destruct (String.eqb_spec (rstrip s) EmptyString) as [He | Hne]; cbn [andb].
  - destruct (is_space c) eqn:Hc; [reflexivity |].
    rewrite rstrip_cons, IH, He, Hc. reflexivity.
  - rewrite rstrip_cons, IH.
    destruct (String.eqb_spec (rstrip s) EmptyString); [contradiction | reflexivity].
Qed.

Lemma lstrip_rstrip (s : string) : lstrip (rstrip s) = rstrip (lstrip s).
Proof.
  induction s as [|c s IH]; [reflexivity |].
  rewrite rstrip_cons. cbn [lstrip].
  destruct (is_space c) eqn:Hc.
  - rewrite andb_true_r.
    destruct (String.eqb_spec (rstrip s) EmptyString) as [He | Hne].
    + rewrite <- IH, He. reflexivity.
    + cbn [lstrip]. rewrite Hc. exact IH.
  - rewrite andb_false_r. cbn [lstrip]. rewrite Hc.
    rewrite rstrip_cons, Hc, andb_false_r. reflexivity.
Qed.

Lemma strip_idem (s : string) : strip (strip s) = strip s.
Proof.
  unfold strip. rewrite (lstrip_rstrip (lstrip (rstrip s))).
  rewrite lstrip_idem, <- lstrip_rstrip, rstrip_idem. reflexivity.
Qed.

Lemma lstrip_map (f : ascii -> ascii) (s : string) :
  (forall c, is_space (f c) = is_space c) ->
  lstrip (string_map f s) = string_map f (lstrip s).
Proof.
  intros Hf. induction s as [|c s IH]; simpl; [reflexivity |].
  rewrite Hf. destruct (is_space c); [exact IH | reflexivity].
Qed.

Lemma rstrip_map (f : ascii -> ascii) (s : string) :
  (forall c, is_space (f c) = is_space c) ->
  rstrip (string_map f s) = string_map f (rstrip s).
Proof.
  intros Hf. induction s as [|c s IH]; [reflexivity |].
  cbn [string_map]. rewrite !rstrip_cons, IH, Hf.
  destruct (rstrip s); simpl; [destruct (is_space c) |]; reflexivity.
Qed.

Lemma strip_lower (s : string) : strip (lower s) = lower (strip s).
Proof.
  unfold strip, lower.
  rewrite rstrip_map, lstrip_map by apply lower_char_space. reflexivity.
Qed.

Lemma lstrip_forallb (p : ascii -> bool) (s : string) :
  string_forallb p s = true -> string_forallb p (lstrip s) = true.
Proof.
  induction s as [|c s IH]; simpl; [reflexivity |].
  intros H. destruct (is_space c); [| exact H].
  apply andb_prop in H. apply IH, H.
Qed.

Lemma rstrip_forallb (p : ascii -> bool) (s : string) :
  string_forallb p s = true -> string_forallb p (rstrip s) = true.
Proof.
  induction s as [|c s IH]; [reflexivity |].
  intros H. cbn [string_forallb] in H. apply andb_prop in H. destruct H as [Hc Hs].
  rewrite rstrip_cons. destruct (_ && _); [reflexivity |].
  cbn [string_forallb]. rewrite Hc, IH by assumption. reflexivity.
Qed.

Lemma strip_forallb (p : ascii -> bool) (s : string) :
  string_forallb p s = true -> string_forallb p (strip s) = true.
Proof. intros H. apply lstrip_forallb, rstrip_forallb, H. Qed.

Lemma strip_blank (s : string) :
  string_forallb is_space s = true -> strip s = EmptyString.
Proof.
  intros H. unfold strip. rewrite lstrip_rstrip.
  assert (Hl : lstrip s = EmptyString).
  { induction s as [|c s IH]; simpl in *; [reflexivity |].
    apply andb_prop in H. destruct H as [-> Hs]. apply IH, Hs. }
  rewrite Hl. reflexivity.
Qed.

(** *** Splitting *)

Lemma split_from_forallb (p : ascii -> bool) (sep : string) (skip : nat) (s : string) :
  string_forallb p s = true ->
  Forall (fun piece => string_forallb p piece = true) (split_from sep skip s).
Proof.
  revert skip. induction s as [|c s IH]; intros skip H; cbn [split_from].
  - constructor; [reflexivity | constructor].
  - simpl in H. apply andb_prop in H. destruct H as [Hc Hs].
    destruct skip as [|k]; [| apply IH, Hs].
    destruct (String.prefix sep (String c s)).
    + constructor; [reflexivity | apply IH, Hs].
    + specialize (IH 0%nat Hs). destruct (split_from sep 0 s) as [|piece rest].
      * constructor; [simpl; rewrite Hc; reflexivity | constructor].
      * inversion IH; subst. constructor; [| assumption].
        simpl. rewrite Hc. assumption.
Qed.

(** With a separator of one character, no piece holds the separator. *)
Lemma split_char_pieces (x : ascii) (s : string) :
  Forall (fun piece => string_forallb (fun c => negb (Ascii.eqb c x)) piece = true)
    (split (String x EmptyString) s).
Proof.
  unfold split. induction s as [|c s IH]; simpl.
  - constructor; [reflexivity | constructor].
  - destruct (ascii_dec x c) as [-> | Hne].
    + replace (String.prefix EmptyString s) with true by (destruct s; reflexivity).
      constructor; [reflexivity | exact IH].
    + destruct (split_from (String x EmptyString) 0 s) as [|piece rest].
      * constructor; [| constructor]. simpl.
        destruct (Ascii.eqb_spec c x); [congruence | reflexivity].
      * inversion IH; subst. constructor; [| assumption].
        simpl. destruct (Ascii.eqb_spec c x); [congruence | assumption].
Qed.

Lemma lstrip_empty_blank (s : string) :
  lstrip s = EmptyString -> string_forallb is_space s = true.
Proof.
  induction s as [|c s IH]; simpl; [reflexivity |].
  destruct (is_space c); [exact IH | discriminate].
Qed.

Lemma rstrip_blank_inv (s : string) :
  string_forallb is_space (rstrip s) = true -> string_forallb is_space s = true.
Proof.
  induction s as [|c s IH]; [reflexivity |].
  rewrite rstrip_cons.
  destruct (String.eqb_spec (rstrip s) EmptyString) as [He | Hne]; cbn [andb].
  - destruct (is_space c) eqn:Hc; cbn [string_forallb]; rewrite Hc.
    + intros _. apply IH. rewrite He. reflexivity.
    + discriminate.
  - cbn [string_forallb]. intros H. apply andb_prop in H. destruct H as [-> H].
    apply IH, H.
Qed.

Lemma strip_empty_blank (s : string) :
  strip s = EmptyString -> string_forallb is_space s = true.
Proof. intros H. apply rstrip_blank_inv, lstrip_empty_blank, H. Qed.

Lemma split_char_join (p : ascii -> bool) (x : ascii) (s : string) :
  p x = true ->
  Forall (fun piece => string_forallb p piece = true) (split (String x EmptyString) s) ->
  string_forallb p s = true.
Proof.
  intros Hx. unfold split. induction s as [|c s IH]; [reflexivity |].
  cbn [split_from String.prefix string_forallb].
  destruct (ascii_dec x c) as [-> | Hne].
  - replace (String.prefix EmptyString s) with true by (destruct s; reflexivity).
    intros H. inversion H; subst. rewrite Hx, IH by assumption. reflexivity.
  - destruct (split_from (String x EmptyString) 0 s) as [|piece rest].
    + intros H. inversion H as [|? ? Hc _]; subst. cbn [string_forallb] in Hc.
      apply andb_prop in Hc. destruct Hc as [-> _].
      rewrite IH; [reflexivity | constructor].
    + intros H. inversion H as [|? ? Hc Hrest]; subst. cbn [string_forallb] in Hc.
      apply andb_prop in Hc. destruct Hc as [-> Hp].
      rewrite IH; [reflexivity | constructor; assumption].
Qed.

Lemma filter_nil_Forall {A : Type} (f : A -> bool) (l : list A) :
  List.filter f l = [] <-> Forall (fun x => f x = false) l.
Proof.
  induction l as [|x l IH]; simpl.
  - split; [constructor | reflexivity].
  - destruct (f x) eqn:Hx.
    + split; [discriminate | intros H; inversion H; congruence].
    + rewrite IH. split; [intros H; constructor; assumption | intros H; inversion H; assumption].
Qed.

Lemma splitString_some (s separator : string) (l : list string) :
  splitString s separator = Some l ->
  separator <> EmptyString /\
  l = map (fun elem => lower (strip elem))
        (List.filter (fun elem => negb (String.eqb (strip elem) EmptyString))
           (split separator s)).
Proof.
  unfold splitString. destruct separator; [discriminate |].
  intros H. inversion H. split; [discriminate | reflexivity].
Qed.

(** [splitString] raises exactly on an empty separator; otherwise every
    element of its result is not empty, has no white space at either end
    and is in lower case. *)
Theorem splitString_elements (s separator : string) :
  (splitString s separator = None <-> separator = EmptyString) /\
  (forall l e, splitString s separator = Some l -> In e l ->
     e <> EmptyString /\ strip e = e /\ lower e = e).
Proof.
  split.
  - unfold splitString. destruct separator; split; try discriminate; reflexivity.
  - intros l e Hl He. apply splitString_some in Hl. destruct Hl as [_ ->].
    apply in_map_iff in He. destruct He as (piece & <- & Hin).
    apply filter_In in Hin. destruct Hin as [_ Hne].
    split; [| split].
    + intros H. apply string_map_empty in H. rewrite H in Hne. discriminate.
    + rewrite strip_lower, strip_idem. reflexivity.
    + apply lower_idem.
Qed.

Lemma splitString_elements_witness :
  splitString " A, ,b C ," "," = Some ["a"; "b c"] /\
  ("b c" <> EmptyString /\ strip "b c" = "b c" /\ lower "b c" = "b c").
Proof.
  split; [reflexivity |].
  apply (proj2 (splitString_elements " A, ,b C ," ",") ["a"; "b c"] "b c");
    [reflexivity | right; left; reflexivity].
Defined.

Lemma searchable_char (c : ascii) :
  (fun c' => negb (in_punctuation_class c') && Ascii.eqb (lower_char c') c')
    (lower_char (if in_punctuation_class c then " "%char else c)) = true.
Proof. ascii_cases c. Qed.

(** The words of [getSearchable]: not empty, without white space at either
    end, and made of characters that are no blank, no punctuation other
    than the backslash, and in lower case. *)
Theorem getSearchable_words (s : string) :
  exists l, getSearchable s = Some l /\
    forall w, In w l ->
      w <> EmptyString /\ strip w = w /\
      string_forallb (fun c => negb (Ascii.eqb c " ") &&
                               (negb (in_punctuation_class c) &&
                                Ascii.eqb (lower_char c) c)) w = true.
Proof.
  unfold getSearchable. eexists. split; [reflexivity |].
  intros w Hw. apply in_map_iff in Hw. destruct Hw as (piece & <- & Hin).
  apply filter_In in Hin. destruct Hin as [Hin Hne].
  set (t := lower (eliminatePunc s)) in *.
  assert (Ht : string_forallb
                 (fun c => negb (in_punctuation_class c) && Ascii.eqb (lower_char c) c) t
               = true).
  { unfold t, lower, eliminatePunc. rewrite string_map_map, string_forallb_map.
    apply (string_forallb_impl (fun _ => true)).
    - intros c _. apply searchable_char.
    - clear. induction s; simpl; auto. }
  assert (Hp : string_forallb
                 (fun c => negb (Ascii.eqb c " ") &&
                           (negb (in_punctuation_class c) && Ascii.eqb (lower_char c) c))
                 piece = true).
  { rewrite string_forallb_and. apply andb_true_intro. split.
    - pose proof (split_char_pieces " " t) as Hf.
      rewrite List.Forall_forall in Hf. apply Hf, Hin.
    - pose proof (split_from_forallb _ " " 0 t Ht) as Hf.
      rewrite List.Forall_forall in Hf. apply Hf, Hin. }
  apply strip_forallb in Hp.
  assert (Hl : lower (strip piece) = strip piece).
  { apply string_map_fixed.
    apply (string_forallb_impl _ _ _ (fun c H => proj2 (andb_prop _ _ (proj2 (andb_prop _ _ H)))) Hp). }
  rewrite Hl. split; [| split; [apply strip_idem | exact Hp]].
  intros H. rewrite H in Hne. discriminate.
Qed.

Lemma getSearchable_words_witness :
  getSearchable "Data-Structures & C\S " = Some ["data"; "structures"; "c\s"] /\
  strip "c\s" = "c\s".
Proof.
  split; [reflexivity |].
  destruct (getSearchable_words "Data-Structures & C\S ") as (l & Hl & Hw).
  inversion Hl; subst l.
  apply (Hw "c\s"). right; right; left; reflexivity.
Defined.

Lemma searchable_char_lower (c : ascii) :
  lower_char (if in_punctuation_class (lower_char c) then " "%char else lower_char c)
  = lower_char (if in_punctuation_class c then " "%char else c).
Proof. ascii_cases c. Qed.

Lemma searchable_char_punct (c : ascii) :
  lower_char (if in_punctuation_class (if in_punctuation_class c then " "%char else c)
              then " "%char else (if in_punctuation_class c then " "%char else c))
  = lower_char (if in_punctuation_class c then " "%char else c).
Proof. ascii_cases c. Qed.

(** [getSearchable] does not tell upper case from lower case, nor
    punctuation from blanks. *)
Theorem getSearchable_insensitive (s : string) :
  getSearchable (lower s) = getSearchable s /\
  getSearchable (eliminatePunc s) = getSearchable s.
Proof.
  unfold getSearchable, lower, eliminatePunc. split; f_equal;
    rewrite !string_map_map; apply string_map_ext; intros c.
  - apply searchable_char_lower.
  - apply searchable_char_punct.
Qed.

Lemma blank_char (c : ascii) :
  is_space (lower_char (if in_punctuation_class c then " "%char else c))
  = is_space c || in_punctuation_class c.
Proof. ascii_cases c. Qed.

(** [getSearchable] returns no word exactly for the strings made of white
    space and of punctuation other than the backslash. *)
Theorem getSearchable_nothing (s : string) :
  getSearchable s = Some [] <->
  string_forallb (fun c => is_space c || in_punctuation_class c) s = true.
Proof.
  assert (Ht : string_forallb is_space (lower (eliminatePunc s))
               = string_forallb (fun c => is_space c || in_punctuation_class c) s).
  { unfold lower, eliminatePunc. rewrite string_map_map, string_forallb_map.
    induction s as [|c s IH]; simpl; [reflexivity |]. rewrite blank_char, IH. reflexivity. }
  rewrite <- Ht. unfold getSearchable, splitString. split.
  - intros H. inversion H as [Hm]. apply map_eq_nil in Hm.
    apply filter_nil_Forall in Hm.
    apply (split_char_join is_space " "); [reflexivity |].
    eapply List.Forall_impl; [| exact Hm]. cbv beta. intros piece Hp.
    apply strip_empty_blank. apply negb_false_iff, String.eqb_eq in Hp. exact Hp.
  - intros H. f_equal.
    replace (List.filter _ _) with (@nil string); [reflexivity |].
    symmetry. apply filter_nil_Forall.
    eapply List.Forall_impl; [| apply (split_from_forallb is_space " " 0 _ H)].
    cbv beta. intros piece Hp. rewrite (strip_blank piece Hp). reflexivity.
Qed.

(** ** Dicts in insertion order *)

Section Dicts.

Context {A : Type}.

Lemma dict_get_set_eq (k : string) (v : A) (d : list (string * A)) :
  dict_get k (dict_set k v d) = Some v.
Proof.
  induction d as [|[k' v'] d IH]; simpl.
  - rewrite String.eqb_refl. reflexivity.
  - destruct (String.eqb k k') eqn:Hk; simpl; rewrite Hk; [reflexivity | exact IH].
Qed.

Lemma dict_get_set_ne (k k0 : string) (v : A) (d : list (string * A)) :
  k0 <> k -> dict_get k0 (dict_set k v d) = dict_get k0 d.
Proof.
  intros Hne. induction d as [|[k' v'] d IH]; simpl.
  - destruct (String.eqb_spec k0 k); [contradiction | reflexivity].
  - destruct (String.eqb_spec k k') as [<- | Hk]; simpl.
    + destruct (String.eqb_spec k0 k); [contradiction | reflexivity].
    + rewrite IH. reflexivity.
Qed.

Lemma dict_get_None (k : string) (d : list (string * A)) :
  dict_get k d = None <-> ~ In k (dict_keys d).
Proof.
  induction d as [|[k' v'] d IH]; simpl; [tauto |].
  destruct (String.eqb_spec k k') as [-> | Hk]; [split; [discriminate | tauto] |].
  rewrite IH. split; [intros H [He | Hi]; congruence | tauto].
Qed.

Lemma dict_keys_set (k : string) (v : A) (d : list (string * A)) :
  dict_keys (dict_set k v d)
  = match dict_get k d with
    | Some _ => dict_keys d
    | None => (dict_keys d ++ [k])%list
    end.
Proof.
  unfold dict_keys. induction d as [|[k' v'] d IH]; simpl; [reflexivity |].
  destruct (String.eqb k k'); simpl; [reflexivity |].
  rewrite IH. destruct (dict_get k d); reflexivity.
Qed.

End Dicts.

(** ** [Listdict.concat] *)

Section Concat.

Context {A : Type}.

Lemma concat_cons (self other : Listdict A) (key : string) (value : list A) :
  Listdict_concat self ((key, value) :: other)
  = Listdict_concat
      (match dict_get key self with
       | Some l => dict_set key (l ++ value)%list self
       | None => dict_set key value self
       end) other.
Proof. reflexivity. Qed.

Lemma concat_get_absent (self other : Listdict A) (k : string) :
  dict_get k other = None ->
  dict_get k (Listdict_concat self other) = dict_get k self.
Proof.
  revert self. induction other as [|[key value] other IH]; intros self Hk; [reflexivity |].
  simpl in Hk. destruct (String.eqb_spec k key) as [-> | Hne]; [discriminate |].
  rewrite concat_cons, IH by assumption.
  destruct (dict_get key self); apply dict_get_set_ne; assumption.
Qed.

(** What [concat] leaves under a key: the list of [self] followed by the
    list of [other], or the one there is. *)
Theorem concat_lookup (self other : Listdict A) (k : string) :
  List.NoDup (dict_keys other) ->
  dict_get k (Listdict_concat self other)
  = match dict_get k self, dict_get k other with
    | Some a, Some b => Some (a ++ b)%list
    | Some a, None => Some a
    | None, Some b => Some b
    | None, None => None
    end.
Proof.
  revert self. induction other as [|[key value] other IH]; intros self Hnd.
  - simpl. destruct (dict_get k self); reflexivity.
  - inversion Hnd as [|? ? Hnotin Hnd']; subst.
    rewrite concat_cons. cbn [dict_get].
    destruct (String.eqb_spec k key) as [-> | Hne].
    + apply dict_get_None in Hnotin.
      rewrite concat_get_absent by assumption.
      destruct (dict_get key self); apply dict_get_set_eq.
    + rewrite IH by assumption.
      destruct (dict_get key self); rewrite dict_get_set_ne by assumption; reflexivity.
Qed.

(** The keys after [concat]: those of [self] in their order, then the new
    keys of [other] in theirs. *)
Theorem concat_keys (self other : Listdict A) :
  List.NoDup (dict_keys other) ->
  dict_keys (Listdict_concat self other)
  = (dict_keys self ++
     List.filter (fun k => match dict_get k self with Some _ => false | None => true end)
       (dict_keys other))%list.
Proof.
  revert self. induction other as [|[key value] other IH]; intros self Hnd.
  - simpl. rewrite app_nil_r. reflexivity.
  - inversion Hnd as [|? ? Hnotin Hnd']; subst.
    rewrite concat_cons, IH by assumption. cbn [dict_keys map fst List.filter].
    assert (Hf : forall d : Listdict A,
               (forall k, k <> key -> dict_get k d = dict_get k self) ->
               List.filter (fun k => match dict_get k d with Some _ => false | None => true end)
                 (dict_keys other)
               = List.filter (fun k => match dict_get k self with Some _ => false | None => true end)
                   (dict_keys other)).
    { intros d Hd. apply filter_ext_in. intros k Hin. rewrite Hd; [reflexivity |].
      intros ->. contradiction. }
    destruct (dict_get key self) eqn:Hk.
    + rewrite dict_keys_set, Hk. f_equal. apply Hf.
      intros k Hne. apply dict_get_set_ne. assumption.
    + rewrite dict_keys_set, Hk, <- app_assoc. f_equal. cbn [app]. f_equal. apply Hf.
      intros k Hne. apply dict_get_set_ne. assumption.
Qed.

End Concat.

Lemma concat_lookup_witness :
  dict_get "b" (Listdict_concat [("a", [1]); ("b", [2])] [("b", [3]); ("c", [4])])
  = Some [2; 3].
Proof.
  apply (concat_lookup [("a", [1]); ("b", [2])] [("b", [3]); ("c", [4])] "b").
  repeat constructor; simpl; intuition discriminate.
Defined.

Lemma concat_keys_witness :
  dict_keys (Listdict_concat [("a", [1]); ("b", [2])] [("c", [4]); ("b", [3])])
  = ["a"; "b"; "c"].
Proof.
  apply (concat_keys [("a", [1]); ("b", [2])] [("c", [4]); ("b", [3])]).
  repeat constructor; simpl; intuition discriminate.
Defined.

Lemma dict_set_absent {A : Type} (k : string) (v : A) (d : list (string * A)) :
  dict_get k d = None -> dict_set k v d = (d ++ [(k, v)])%list.
Proof.
  induction d as [|[k' v'] d IH]; simpl; [reflexivity |].
  destruct (String.eqb k k'); [discriminate |]. intros H. rewrite IH by assumption.
  reflexivity.
Qed.

Lemma dict_get_app_absent {A : Type} (k : string) (d d' : list (string * A)) :
  dict_get k d = None -> dict_get k (d ++ d')%list = dict_get k d'.
Proof.
  induction d as [|[k' v'] d IH]; simpl; [reflexivity |].
  destruct (String.eqb k k'); [discriminate | exact IH].
Qed.

(** When no key of [other] is in [self], [concat] puts the entries of
    [other] after those of [self]; on an empty [self] it copies [other]. *)
Theorem concat_disjoint {A : Type} (self other : Listdict A) :
  List.NoDup (dict_keys other) ->
  (forall k, In k (dict_keys other) -> dict_get k self = None) ->
  Listdict_concat self other = (self ++ other)%list.
Proof.
  revert self. induction other as [|[key value] other IH]; intros self Hnd Hdis.
  - simpl. rewrite app_nil_r. reflexivity.
  - inversion Hnd as [|? ? Hnotin Hnd']; subst.
    rewrite concat_cons, (Hdis key) by (left; reflexivity).
    rewrite dict_set_absent by (apply Hdis; left; reflexivity).
    rewrite IH; [rewrite <- app_assoc; reflexivity | assumption |].
    intros k Hin. rewrite dict_get_app_absent by (apply Hdis; right; assumption).
    simpl. destruct (String.eqb_spec k key) as [-> | _]; [contradiction | reflexivity].
Qed.

Lemma concat_disjoint_witness :
  Listdict_concat [] [("a", [1; 2]); ("b", [3])] = [("a", [1; 2]); ("b", [3])].
Proof.
  apply (concat_disjoint [] [("a", [1; 2]); ("b", [3])]).
  - repeat constructor; simpl; intuition discriminate.
  - reflexivity.
Defined.

(** ** [parse_time] *)

Example test_parse_time :
  parse_time "8:15am" = Some (MkTime 8 15 0 0) /\
  parse_time "8:15PM" = Some (MkTime 20 15 0 0) /\
  parse_time "8:00" = Some (MkTime 8 0 0 0) /\
  parse_time "20:00" = Some (MkTime 20 0 0 0).
Proof. repeat split. Qed.

Example parse_time_edges :
  map parse_time ["12:00am"; "12:00pm"; "0:30am"; "00:30"; "13:00pm"; "1:5pm";
                  "1:05 pm"; " 1:05pm"; "1:234"; "24:00"; "23:59"; "7:60"; "1:0pm"; "8:5"]
  = [Some (MkTime 0 0 0 0); Some (MkTime 12 0 0 0); None; Some (MkTime 0 30 0 0); None;
     Some (MkTime 13 5 0 0); None; None; None; None; Some (MkTime 23 59 0 0); None;
     Some (MkTime 13 0 0 0); Some (MkTime 8 5 0 0)].
Proof. reflexivity. Qed.

Lemma is_digit_value (c : ascii) : is_digit c = true -> 0 <= digit_value c <= 9.
Proof.
  unfold is_digit, digit_value. intros H. apply andb_prop in H. destruct H as [H1 H2].
  apply Nat.leb_le in H1, H2. lia.
Qed.

Lemma digit_in_value (lo hi : Z) (c : ascii) :
  digit_in lo hi c = true -> lo <= digit_value c <= hi.
Proof.
  unfold digit_in. intros H. apply andb_prop in H. destruct H as [H H2].
  apply andb_prop in H. destruct H as [_ H1]. lia.
Qed.

Lemma two_digit_group_in (p1 p2 : ascii -> bool) (s r : string) (v : Z) :
  In (v, r) (two_digit_group p1 p2 s) ->
  exists a b, p1 a = true /\ p2 b = true /\ v = digit_value a * 10 + digit_value b.
Proof.
  unfold two_digit_group. destruct s as [|a [|b rest]]; try contradiction.
  destruct (p1 a) eqn:H1; [| contradiction].
  destruct (p2 b) eqn:H2; [| contradiction].
  intros [H | []]. inversion H; subst. eauto.
Qed.

Lemma one_digit_group_in (p : ascii -> bool) (s r : string) (v : Z) :
  In (v, r) (one_digit_group p s) -> exists a, p a = true /\ v = digit_value a.
Proof.
  unfold one_digit_group. destruct s as [|a rest]; try contradiction.
  destruct (p a) eqn:H1; [| contradiction].
  intros [H | []]. inversion H; subst. eauto.
Qed.

Lemma group_I_value (s r : string) (v : Z) : In (v, r) (group_I s) -> 1 <= v <= 12.
Proof.
  unfold group_I. intros H.
  repeat (apply in_app_or in H; destruct H as [H | H]);
    [ apply two_digit_group_in in H; destruct H as (a & b & Ha & Hb & ->) ..
    | apply one_digit_group_in in H; destruct H as (a & Ha & ->) ];
    repeat match goal with
      | H : digit_in _ _ _ = true |- _ => apply digit_in_value in H
      end; lia.
Qed.

Lemma group_H_value (s r : string) (v : Z) : In (v, r) (group_H s) -> 0 <= v <= 23.
Proof.
  unfold group_H. intros H.
  repeat (apply in_app_or in H; destruct H as [H | H]);
    [ apply two_digit_group_in in H; destruct H as (a & b & Ha & Hb & ->) ..
    | apply one_digit_group_in in H; destruct H as (a & Ha & ->) ];
    repeat match goal with
      | H : digit_in _ _ _ = true |- _ => apply digit_in_value in H
      | H : is_digit _ = true |- _ => apply is_digit_value in H
      end; lia.
Qed.

Lemma group_M_value (s r : string) (v : Z) : In (v, r) (group_M s) -> 0 <= v <= 59.
Proof.
  unfold group_M. intros H.
  repeat (apply in_app_or in H; destruct H as [H | H]);
    [ apply two_digit_group_in in H; destruct H as (a & b & Ha & Hb & ->) ..
    | apply one_digit_group_in in H; destruct H as (a & Ha & ->) ];
    repeat match goal with
      | H : digit_in _ _ _ = true |- _ => apply digit_in_value in H
      | H : is_digit _ = true |- _ => apply is_digit_value in H
      end; lia.
Qed.

Lemma whole_match_in {A : Type} (matches : list (A * string)) (x : A) :
  whole_match matches = Some x -> In (x, EmptyString) matches.
Proof.
  unfold whole_match. destruct matches as [|[y [|]] ?]; try discriminate.
  intros H; inversion H; subst. left. reflexivity.
Qed.

(** What [parse_time] returns is a time of day in whole minutes. *)
Theorem parse_time_valid (time_string : string) (t : time) :
  parse_time time_string = Some t ->
  valid_time t = true /\ second t = 0 /\ microsecond t = 0.
Proof.
  unfold parse_time. destruct (strptime_IMp time_string) as [t' |] eqn:H12.
  - intros H; inversion H; subst t'; clear H. unfold strptime_IMp in H12.
    destruct (whole_match _) as [[[i m] pm] |] eqn:Hw; [| discriminate].
    inversion H12; subst t; clear H12. apply whole_match_in in Hw.
    apply in_flat_map in Hw. destruct Hw as ([i' r1] & Hi & Hw).
    apply in_flat_map in Hw. destruct Hw as (r2 & _ & Hw).
    apply in_flat_map in Hw. destruct Hw as ([m' r3] & Hm & Hw).
    apply in_map_iff in Hw. destruct Hw as ([pm' r4] & He & _).
    inversion He; subst. apply group_I_value in Hi. apply group_M_value in Hm.
    unfold valid_time. simpl.
    split; [| split; reflexivity].
    destruct pm; destruct (Z.eqb_spec i 12); repeat (apply andb_true_intro; split); lia.
  - unfold strptime_HM. destruct (whole_match _) as [[h m] |] eqn:Hw; [| discriminate].
    intros H; inversion H; subst t; clear H. apply whole_match_in in Hw.
    apply in_flat_map in Hw. destruct Hw as ([h' r1] & Hh & Hw).
    apply in_flat_map in Hw. destruct Hw as (r2 & _ & Hw).
    apply in_map_iff in Hw. destruct Hw as ([m' r3] & He & Hm).
    inversion He; subst. apply group_H_value in Hh. apply group_M_value in Hm.
    unfold valid_time. simpl.
    split; [| split; reflexivity].
    repeat (apply andb_true_intro; split); lia.
Qed.

Lemma parse_time_valid_witness :
  valid_time (MkTime 20 15 0 0) = true /\ second (MkTime 20 15 0 0) = 0 /\
  microsecond (MkTime 20 15 0 0) = 0.
Proof. apply (parse_time_valid "8:15PM"). reflexivity. Defined.

Lemma time_eqb_eq (a b : time) : time_eqb a b = true -> a = b.
Proof.
  unfold time_eqb. destruct a as [h1 m1 s1 u1], b as [h2 m2 s2 u2].
  cbn [hour minute second microsecond]. intros H.
  repeat (apply andb_prop in H; destruct H as [H ?]).
  f_equal; apply Z.eqb_eq; assumption.
Qed.

Lemma minutes_of_day (h m : Z) :
  0 <= h < 24 -> 0 <= m < 60 ->
  In (Z.to_nat (h * 60 + m)) (seq 0 (Z.to_nat 1440)) /\
  Z.of_nat (Z.to_nat (h * 60 + m)) / 60 = h /\
  Z.of_nat (Z.to_nat (h * 60 + m)) mod 60 = m.
Proof.
  intros Hh Hm. rewrite Z2Nat.id by lia. split; [apply in_seq; lia |].
  split; Z.div_mod_to_equations; lia.
Qed.

(** [parse_time] reads back the times that [generate_query] writes with
    [%I:%M%p]: the hour and the minute of the time of day. *)
Theorem parse_time_strftime (t : time) :
  valid_time t = true ->
  parse_time (strftime_IMp t) = Some (MkTime (hour t) (minute t) 0 0).
Proof.
  intros Hv. unfold valid_time in Hv.
  repeat (apply andb_prop in Hv; destruct Hv as [Hv ?]).
  assert (Hall : forallb (fun k =>
                    let t := MkTime (Z.of_nat k / 60) (Z.of_nat k mod 60) 0 0 in
                    match parse_time (strftime_IMp t) with
                    | Some t' => time_eqb t' t
                    | None => false
                    end) (seq 0 (Z.to_nat 1440)) = true) by (vm_compute; reflexivity).
  rewrite forallb_forall in Hall.
  destruct (minutes_of_day (hour t) (minute t)) as (Hin & Hh & Hm); [lia | lia |].
  specialize (Hall _ Hin). cbv zeta in Hall. rewrite Hh, Hm in Hall.
  replace (strftime_IMp t) with (strftime_IMp (MkTime (hour t) (minute t) 0 0))
    by (destruct t; reflexivity).
  destruct (parse_time _) as [t' |]; [| discriminate].
  apply time_eqb_eq in Hall. rewrite Hall. reflexivity.
Qed.

Lemma parse_time_strftime_witness :
  strftime_IMp (MkTime 0 5 30 0) = "12:05AM" /\
  parse_time "12:05AM" = Some (MkTime 0 5 0 0).
Proof.
  split; [reflexivity |].
  apply (parse_time_strftime (MkTime 0 5 30 0)). reflexivity.
Defined.

(** [parse_time] reads a time on the 24-hour clock, with or without the
    leading zero of the hour. *)
Theorem parse_time_24_hour (h m : Z) :
  0 <= h < 24 -> 0 <= m < 60 ->
  parse_time (two_digits h +:+ ":" +:+ two_digits m) = Some (MkTime h m 0 0) /\
  parse_time (py_str_int h +:+ ":" +:+ two_digits m) = Some (MkTime h m 0 0).
Proof.
  intros Hh Hm.
  assert (Hall : forallb (fun k =>
                    let h := Z.of_nat k / 60 in
                    let m := Z.of_nat k mod 60 in
                    match parse_time (two_digits h +:+ ":" +:+ two_digits m),
                          parse_time (py_str_int h +:+ ":" +:+ two_digits m) with
                    | Some t1, Some t2 =>
                        time_eqb t1 (MkTime h m 0 0) && time_eqb t2 (MkTime h m 0 0)
                    | _, _ => false
                    end) (seq 0 (Z.to_nat 1440)) = true) by (vm_compute; reflexivity).
  rewrite forallb_forall in Hall.
  destruct (minutes_of_day h m) as (Hin & Hh' & Hm'); [lia | lia |].
  specialize (Hall _ Hin). cbv zeta in Hall. rewrite Hh', Hm' in Hall.
  destruct (parse_time (two_digits h +:+ _)) as [t1 |]; [| discriminate].
  destruct (parse_time (py_str_int h +:+ _)) as [t2 |]; [| discriminate].
  apply andb_prop in Hall. destruct Hall as [H1 H2].
  apply time_eqb_eq in H1, H2. subst. split; reflexivity.
Qed.

Lemma parse_time_24_hour_witness :
  parse_time "08:05" = Some (MkTime 8 5 0 0) /\
  parse_time "8:05" = Some (MkTime 8 5 0 0).
Proof. apply (parse_time_24_hour 8 5); lia. Defined.

(** ** [word_limit] *)

Lemma substring_length_le (n : nat) (s : string) :
  (String.length (substring 0 n s) <= n)%nat.
Proof.
  revert s. induction n as [|n IH]; intros s.
  - destruct s; simpl; lia.
  - destruct s as [|c s]; simpl; [lia |]. specialize (IH s). lia.
Qed.

Lemma substring_prefix (n : nat) (s : string) :
  String.prefix (substring 0 n s) s = true.
Proof.
  revert s. induction n as [|n IH]; intros s.
  - destruct s; reflexivity.
  - destruct s as [|c s]; simpl; [reflexivity |].
    destruct (ascii_dec c c); [apply IH | congruence].
Qed.

Lemma word_limit_arg_spec (arg : pyval) : limited arg (word_limit_arg arg).
Proof.
  destruct arg; simpl; try reflexivity.
  destruct (Nat.ltb_spec 100 (String.length s)).
  - eexists. split; [reflexivity |]. split; [apply substring_length_le |].
    split; [apply substring_prefix | lia].
  - exists s. split; [reflexivity |]. split; [assumption |]. split; [| reflexivity].
    clear. induction s as [|c s IH]; simpl; [reflexivity |].
    destruct (ascii_dec c c); [exact IH | congruence].
Qed.


(** ** [list_all_courses] *)

Lemma hit_ids_all (hits : list pyval) (ids : list pyval) :
  hit_ids hits = Some ids <->
  Forall2 (fun elem id => exists d, elem = VDict d /\ dict_get "_id" d = Some id) hits ids.
Proof.
  revert ids. induction hits as [|elem hits IH]; intros ids; simpl.
  - split; [intros H; inversion H; constructor | intros H; inversion H; reflexivity].
  - split.
    + destruct elem; try discriminate.
      destruct (dict_get "_id" d) as [id |] eqn:Hid; [| discriminate].
      destruct (hit_ids hits) as [ids' |]; [| discriminate].
      intros H; inversion H; subst. constructor; [eauto | apply IH; reflexivity].
    + intros H. inversion H as [|? ? ? ids' (d & -> & Hid) Hrest]; subst.
      rewrite Hid. apply IH in Hrest. rewrite Hrest. reflexivity.
Qed.

(** [list_all_courses] issues one request, of size 7000, and always
    returns a list: the empty list when the backend raises anything, and,
    when the response lists its hits, the [_id] of every hit in order if
    each hit has one and the empty list if any hit has none. *)
Theorem list_all_courses_ids (E : Env)
  (execute_without_source : search_request -> backend_outcome) (term : string) :
  exists index courseids,
    list_all_courses E execute_without_source term
    = ([MkRequest (Some index) None Q0 7000 []], Ok courseids) /\
    ((forall r, execute_without_source (MkRequest (Some index) None Q0 7000 [])
                <> Executed r) -> courseids = []) /\
    (forall r hits l,
       execute_without_source (MkRequest (Some index) None Q0 7000 []) = Executed r ->
       dict_get "hits" (resp_to_dict r) = Some (VDict hits) ->
       dict_get "hits" hits = Some (VList l) ->
       (forall ids,
          Forall2 (fun elem id => exists d, elem = VDict d /\ dict_get "_id" d = Some id)
            l ids -> courseids = ids) /\
       ((exists elem, In elem l /\
                      forall d id, elem = VDict d -> dict_get "_id" d <> Some id) ->
        courseids = [])).
Proof.
  unfold list_all_courses. cbv zeta.
  match goal with |- context [ MkRequest (Some ?i) ] => set (index := i) end.
  exists index.
  destruct (execute_without_source _) as [r | | | |] eqn:Hx;
    try (exists []; split; [reflexivity |]; split; [reflexivity | discriminate]).
  assert (Hnot : (forall r0, Executed r <> Executed r0) -> forall l : list pyval, l = []).
  { intros H. exfalso. apply (H r). reflexivity. }
  destruct (dict_get "hits" (resp_to_dict r)) as [[| s0 | n0 | a0 | l0 | hits | o0] |] eqn:Hh;
    try (exists []; split; [reflexivity |]; split; [intros H; apply Hnot, H |];
         intros r' hits' l Hr Hh'; inversion Hr; subst r'; congruence).
  destruct (dict_get "hits" hits) as [[| s1 | n1 | a1 | l | d1 | o1] |] eqn:Hl;
    try (exists []; split; [reflexivity |]; split; [intros H; apply Hnot, H |];
         intros r' hits' l' Hr Hh' Hl'; inversion Hr; subst r'; congruence).
  destruct (hit_ids l) as [ids' |] eqn:Hids.
  - exists ids'. split; [reflexivity |]. split; [intros H; apply Hnot, H |].
    intros r' hits' l' Hr Hh' Hl'. inversion Hr; subst r'.
    assert (hits' = hits) by congruence. subst hits'.
    assert (l' = l) by congruence. subst l'.
    apply hit_ids_all in Hids. split.
    + intros ids Hf. apply hit_ids_all in Hids, Hf. congruence.
    + intros (elem & Hin & Hno). exfalso.
      clear -Hids Hin Hno. induction Hids as [|? ? ? ? (d & -> & Hid) ? IH].
      * contradiction.
      * destruct Hin as [<- | Hin]; [apply (Hno d _ eq_refl Hid) | apply IH, Hin].
  - exists []. split; [reflexivity |]. split; [intros H; apply Hnot, H |].
    intros r' hits' l' Hr Hh' Hl'. inversion Hr; subst r'.
    assert (hits' = hits) by congruence. subst hits'.
    assert (l' = l) by congruence. subst l'.
    split; [| reflexivity].
    intros ids Hf. apply hit_ids_all in Hf. congruence.
Qed.

(** For [current] and for a term such as [f17], [list_all_courses] searches
    the index that a course searcher selects for the same term. *)
Theorem list_all_courses_index (E : Env)
  (execute_without_source : search_request -> backend_outcome) (term : string) :
  term = "current" \/ match_semester term = true ->
  map sr_index (calls (list_all_courses E execute_without_source term))
  = [CourseSearcher_set_index E (Some term)].
Proof.
  intros [-> | Hm]; [reflexivity |].
  rewrite set_index_semester by assumption.
  unfold list_all_courses. cbn.
  destruct (String.eqb_spec term "current") as [-> | _]; [discriminate | reflexivity].
Qed.

Lemma list_all_courses_ids_witness :
  exists index,
    list_all_courses sample_env sample_ids_backend "f17"
    = ([MkRequest (Some index) None Q0 7000 []], Ok [VStr "15-112"; VStr "15-122"]).
Proof.
  destruct (list_all_courses_ids sample_env sample_ids_backend "f17")
    as (index & ids & Heq & _ & Hhits).
  exists index. rewrite Heq. do 2 f_equal.
  destruct (Hhits _ _ _ eq_refl eq_refl eq_refl) as [Hall _].
  apply Hall. repeat constructor; eexists; split; reflexivity.
Defined.

Lemma list_all_courses_index_witness :
  map sr_index (calls (list_all_courses sample_env sample_ids_backend "m218"))
  = [Some "course-m218"].
Proof.
  apply (list_all_courses_index sample_env sample_ids_backend "m218").
  right. reflexivity.
Defined.

(** ** Searches by course id *)

Lemma courseid_run (E : Env) (courseid : string) (term : option string)
  (k : response -> Run pydict) :
  run_bind (execute E (CourseSearcher_generate_query E)
              (CourseSearcher_init E {[ "courseid" := [VStr courseid] ]} term
                 CourseSearcher_default_size)) k
  = run_bind (fetch E (courseid_query courseid) (CourseSearcher_set_index E term)
                CourseSearcher_default_size (Some "course") None) k.
Proof. rewrite execute_run, generate_courseid_query. reflexivity. Qed.

(** With a response of the backend, [get_course_by_id] goes by the total
    of the hits: none for a total of zero, whatever the hits; otherwise the
    first hit, and an IndexError when there is no hit to take. *)
Theorem get_course_by_id_response (E : Env) (courseid : string) (term : option string)
  (r : Response) :
  match_courseid courseid = true ->
  es_execute E (courseid_request E courseid term) = Executed r ->
  get_course_by_id E courseid term
  = ([courseid_request E courseid term],
     if hits_total r =? 0
     then Ok [("response", VDict (resp_to_dict r)); ("course", VNone)]
     else match resp_hits r with
          | h :: _ => Ok [("response", VDict (resp_to_dict r));
                          ("course", VDict (hit_to_dict h))]
          | [] => Raise IndexError
          end).
Proof.
  intros Hm Hr. unfold get_course_by_id. rewrite Hm, courseid_run.
  unfold fetch, courseid_request in *. rewrite Hr.
  unfold run_bind, run_ret. cbn [app]. f_equal. cbn.
  destruct (hits_total r =? 0); [reflexivity |].
  destruct (resp_hits r); reflexivity.
Qed.

Lemma get_course_by_id_response_witness :
  get_course_by_id two_hits_env "15-112" (Some "f17")
  = ([courseid_request two_hits_env "15-112" (Some "f17")],
     Ok [("response", VDict [("hits", VDict [("total", VInt 2)])]);
         ("course", VDict [("id", VStr "15-112")])]).
Proof.
  apply (get_course_by_id_response two_hits_env "15-112" (Some "f17") two_hits_response);
    reflexivity.
Defined.

(** [get_course_by_id] without a term and [get_courses_by_id] issue the
    same request, and the course of the one is the first of the courses of
    the other. *)
Theorem first_of_the_courses (E : Env) (courseid : string) (r : Response)
  (h : Hit) (hits : list Hit) :
  match_courseid courseid = true ->
  es_execute E (courseid_request E courseid None) = Executed r ->
  resp_hits r = h :: hits -> hits_total r <> 0 ->
  get_course_by_id E courseid None
  = ([courseid_request E courseid None],
     Ok [("response", VDict (resp_to_dict r)); ("course", VDict (hit_to_dict h))]) /\
  get_courses_by_id E courseid
  = ([courseid_request E courseid None],
     Ok [("response", VDict (resp_to_dict r));
         ("courses", VList (VDict (hit_to_dict h)
                            :: map (fun h => VDict (hit_to_dict h)) hits))]).
Proof.
  intros Hm Hr Hh Ht. split.
  - unfold get_course_by_id. rewrite Hm, courseid_run.
    unfold fetch, courseid_request in *. rewrite Hr.
    unfold run_bind, run_ret. cbn [app]. f_equal. cbn. rewrite Hh.
    destruct (Z.eqb_spec (hits_total r) 0); [contradiction | reflexivity].
  - unfold get_courses_by_id. rewrite Hm, courseid_run.
    unfold fetch, courseid_request in *. rewrite Hr.
    unfold run_bind, run_ret. cbn [app]. f_equal.
    unfold format_courses_output, init_courses_output.
    rewrite format_output_response by reflexivity. rewrite Hh. reflexivity.
Qed.

Lemma first_of_the_courses_witness :
  outcome (get_course_by_id two_hits_env "15-112" None)
  = Ok [("response", VDict [("hits", VDict [("total", VInt 2)])]);
        ("course", VDict [("id", VStr "15-112")])] /\
  outcome (get_courses_by_id two_hits_env "15-112")
  = Ok [("response", VDict [("hits", VDict [("total", VInt 2)])]);
        ("courses", VList [VDict [("id", VStr "15-112")]; VDict [("id", VStr "15-122")]])].
Proof.
  destruct (first_of_the_courses two_hits_env "15-112" two_hits_response
              (MkHit [("id", VStr "15-112")]) [MkHit [("id", VStr "15-122")]]
              eq_refl eq_refl eq_refl) as [H1 H2]; [discriminate |].
  rewrite H1, H2. split; reflexivity.
Defined.

(** When the backend raises an error with a status, [get_courses_by_id]
    puts 404 in the place of that status, and [get_course_by_id] returns
    the error as it is. *)
Theorem courses_by_id_error_status (E : Env) (courseid : string) (d : pydict)
  (status : pyval) :
  match_courseid courseid = true ->
  es_execute E (courseid_request E courseid None) = RaisedNotFoundError (VDict d) \/
  es_execute E (courseid_request E courseid None) = RaisedRequestError (VDict d) \/
  es_execute E (courseid_request E courseid None) = RaisedTransportError (VDict d) ->
  dict_get "status" d = Some status -> status <> VNone ->
  get_courses_by_id E courseid
  = ([courseid_request E courseid None],
     Ok [("response", VDict (dict_set "status" (VInt 404) d)); ("courses", VList [])]) /\
  dict_get "status" (dict_set "status" (VInt 404) d) = Some (VInt 404) /\
  dict_keys (dict_set "status" (VInt 404) d) = dict_keys d /\
  get_course_by_id E courseid None
  = ([courseid_request E courseid None],
     Ok [("response", VDict d); ("course", VNone)]).
Proof.
  intros Hm Hr Hs Hn.
  pose proof (has_error_status d status Hs Hn) as He.
  assert (Hf : fetch E (courseid_query courseid) (CourseSearcher_set_index E None)
                 CourseSearcher_default_size (Some "course") None
               = ([courseid_request E courseid None], Ok (RValue (VDict d)))).
  { unfold fetch, courseid_request in *.
    destruct Hr as [-> | [-> | ->]]; reflexivity. }
  split; [| split; [apply dict_get_set_eq | split]].
  - unfold get_courses_by_id. rewrite Hm, courseid_run, Hf.
    unfold run_bind, run_ret. cbn [app]. f_equal.
    unfold format_courses_output, init_courses_output.
    rewrite (format_output_error "courses" _ d eq_refl He). reflexivity.
  - rewrite dict_keys_set, Hs. reflexivity.
  - unfold get_course_by_id. rewrite Hm, courseid_run, Hf.
    unfold run_bind, run_ret. cbn [app]. f_equal.
    cbn [response_to_dict bind]. rewrite He. reflexivity.
Qed.

Lemma courses_by_id_error_status_witness :
  outcome (get_courses_by_id server_error_env "15-112")
  = Ok [("response", VDict [("error", VStr "search_phase_execution_exception");
                            ("status", VInt 404)]);
        ("courses", VList [])].
Proof.
  destruct (courses_by_id_error_status server_error_env "15-112"
              [("error", VStr "search_phase_execution_exception"); ("status", VInt 500)]
              (VInt 500) eq_refl (or_intror (or_intror eq_refl)) eq_refl)
    as (H & _); [discriminate |].
  rewrite H. reflexivity.
Defined.

(** ** Searches for faculty course evaluations *)

Lemma search_fces_run (E : Env) (rq : raw_query_t) (size : Z) (q : Query) :
  FCESearcher_generate_query (FCESearcher_init rq (Some (ES_FCE_INDEX E)) size (Some ["-year"]))
  = Ok q ->
  search_fces E rq size
  = run_bind (fetch E q (Some (ES_FCE_INDEX E)) size (Some "fce") (Some ["-year"]))
      (fun response => run_ret (format_fces_output response)).
Proof. intros Hq. unfold search_fces. rewrite execute_run, Hq. reflexivity. Qed.

(** [get_fce_by_id] does not look at the form of the course id: whatever
    it is given, it issues one request, to the FCE index, for the doc type
    [fce], sorted by [-year], with a [term] clause on [courseid]; of a
    response it returns every hit. [get_fce_by_instructor] does the same
    with a [match] clause on [instructor]. *)
Theorem fce_requests (E : Env) (size : Z) (value : pyval) :
  let by_id :=
    MkRequest (Some (ES_FCE_INDEX E)) (Some "fce")
      (QAnd Q0 (Q "term" [("courseid", PVal value)])) size ["-year"] in
  let by_instructor :=
    MkRequest (Some (ES_FCE_INDEX E)) (Some "fce")
      (QAnd Q0 (Q "match" [("instructor",
                            PVal (VDict [("query", value); ("operator", VStr "and")]))]))
      size ["-year"] in
  calls (get_fce_by_id E value size) = [by_id] /\
  calls (get_fce_by_instructor E value size) = [by_instructor] /\
  (forall r, es_execute E by_id = Executed r ->
     outcome (get_fce_by_id E value size)
     = Ok [("response", VDict (resp_to_dict r));
           ("fces", VList (map (fun h => VDict (hit_to_dict h)) (resp_hits r)))]) /\
  (forall r, es_execute E by_instructor = Executed r ->
     outcome (get_fce_by_instructor E value size)
     = Ok [("response", VDict (resp_to_dict r));
           ("fces", VList (map (fun h => VDict (hit_to_dict h)) (resp_hits r)))]).
Proof.
  cbv zeta.
  assert (Hid : FCESearcher_generate_query
                  (FCESearcher_init {[ "courseid" := [value] ]} (Some (ES_FCE_INDEX E))
                     size (Some ["-year"]))
                = Ok (QAnd Q0 (Q "term" [("courseid", PVal value)])))
    by (vm_compute; reflexivity).
  assert (Hin : FCESearcher_generate_query
                  (FCESearcher_init {[ "instructor" := [value] ]} (Some (ES_FCE_INDEX E))
                     size (Some ["-year"]))
                = Ok (QAnd Q0 (Q "match" [("instructor",
                        PVal (VDict [("query", value); ("operator", VStr "and")]))])))
    by (vm_compute; reflexivity).
  unfold get_fce_by_id, get_fce_by_instructor.
  rewrite (search_fces_run E _ size _ Hid), (search_fces_run E _ size _ Hin).
  unfold fetch, run_bind, run_ret, calls, outcome.
  repeat split.
  - destruct (es_execute E _); reflexivity.
  - destruct (es_execute E _); reflexivity.
  - intros r ->. cbn [snd]. unfold format_fces_output, init_fces_output.
    rewrite format_output_response by reflexivity. reflexivity.
  - intros r ->. cbn [snd]. unfold format_fces_output, init_fces_output.
    rewrite format_output_response by reflexivity. reflexivity.
Qed.

Lemma fce_requests_witness :
  outcome (get_fce_by_id two_hits_env (VStr "not a course id") 100)
  = Ok [("response", VDict [("hits", VDict [("total", VInt 2)])]);
        ("fces", VList [VDict [("id", VStr "15-112")]; VDict [("id", VStr "15-122")]])].
Proof.
  destruct (fce_requests two_hits_env 100 (VStr "not a course id")) as (_ & _ & H & _).
  apply (H two_hits_response). reflexivity.
Defined.

(** ** Searches by building and room *)

Lemma search_courses_same_query (E : Env) (rq rq' : raw_query_t)
  (index : option string) (size : Z) :
  CourseSearcher_generate_query E (CourseSearcher_init E rq index size)
  = CourseSearcher_generate_query E (CourseSearcher_init E rq' index size) ->
  search_courses E rq index size = search_courses E rq' index size.
Proof.
  intros H. unfold search_courses. rewrite !execute_run, H. reflexivity.
Qed.

Lemma generate_place_query (E : Env) (building room : option string)
  (index : option string) (size : Z) :
  let rq0 : raw_query_t := ∅ in
  let rq1 := match building with
             | Some b => <[ "building" := [VStr b] ]> rq0
             | None => rq0
             end in
  let rq2 := match room with
             | Some r => <[ "room" := [VStr r] ]> rq1
             | None => rq1
             end in
  CourseSearcher_generate_query E (CourseSearcher_init E rq2 index size)
  = Ok (place_query (option_map upper building) (option_map upper room)).
Proof.
  destruct (set_index_is_Some E index) as [i Hi].
  unfold CourseSearcher_generate_query, CourseSearcher_init, courseid_clause.
  cbn [raw_query _index]. rewrite Hi.
  destruct building, room; vm_compute; reflexivity.
Qed.



(** ** Searches by keyword *)

Lemma is_Some_same {A B : Type} (o : option A) (o' : option B) :
  (is_Some o <-> is_Some o') ->
  match o with Some _ => true | None => false end
  = match o' with Some _ => true | None => false end.
Proof.
  intros [H1 H2]. destruct o, o'; try reflexivity.
  - destruct (H1 (ex_intro _ a eq_refl)) as [? ?]. discriminate.
  - destruct (H2 (ex_intro _ b eq_refl)) as [? ?]. discriminate.
Qed.

(** [get_courses_by_searching] reads the seven search keys, and of [term]
    only whether it is there: two dicts of arguments, neither empty, that
    agree on these give the same search. With a [term], whatever its
    value, the index is that of the current semester; without one, every
    course index. *)
Theorem searching_reads_its_keys (E : Env) (args args' : gmap string pyval) (size : Z) :
  base.size args <> 0%nat -> base.size args' <> 0%nat ->
  (forall k, In k search_keys -> args !! k = args' !! k) ->
  (is_Some (args !! "term") <-> is_Some (args' !! "term")) ->
  get_courses_by_searching E args size = get_courses_by_searching E args' size /\
  (forall req, In req (calls (get_courses_by_searching E args size)) ->
     sr_index req
     = match args !! "term" with
       | Some _ => Some (get_current_course_index E)
       | None => Some (ES_COURSE_INDEX_PREFIX E +:+ "*")
       end).
Proof.
  intros Hs Hs' Hk Ht. unfold get_courses_by_searching.
  destruct (Nat.eqb_spec (base.size args) 0); [contradiction |].
  destruct (Nat.eqb_spec (base.size args') 0); [contradiction |].
  split.
  - unfold copy_arg. rewrite !has_key.
    rewrite (is_Some_same _ _ Ht).
    rewrite !(Hk "text"), !(Hk "name"), !(Hk "desc"), !(Hk "instructor"),
      !(Hk "courseid"), !(Hk "building"), !(Hk "room")
      by (unfold search_keys; simpl; tauto).
    reflexivity.
  - intros req Hin. apply search_courses_calls in Hin. destruct Hin as (Hi & _).
    rewrite Hi, has_key. destruct (args !! "term"); reflexivity.
Qed.

Lemma searching_reads_its_keys_witness :
  get_courses_by_searching sample_env sample_args 100
  = get_courses_by_searching sample_env sample_args_more 100 /\
  map sr_index (calls (get_courses_by_searching sample_env sample_args 100))
  = [Some "course-s18"].
Proof.
  assert (H1 : base.size sample_args <> 0%nat) by (vm_compute; discriminate).
  assert (H2 : base.size sample_args_more <> 0%nat) by (vm_compute; discriminate).
  assert (Hk : forall k, In k search_keys -> sample_args !! k = sample_args_more !! k).
  { intros k Hin. unfold search_keys in Hin. simpl in Hin.
    repeat (destruct Hin as [<- | Hin]; [vm_compute; reflexivity |]). contradiction. }
  assert (Ht : is_Some (sample_args !! "term") <-> is_Some (sample_args_more !! "term")).
  { split; intros _; eexists; vm_compute; reflexivity. }
  destruct (searching_reads_its_keys sample_env sample_args sample_args_more 100
              H1 H2 Hk Ht) as [Heq Hidx].
  split; [exact Heq |].
  assert (Hc : exists req, calls (get_courses_by_searching sample_env sample_args 100) = [req])
    by (eexists; vm_compute; reflexivity).
  destruct Hc as [req Hc]. rewrite Hc. cbn [map]. f_equal.
  rewrite (Hidx req) by (rewrite Hc; left; reflexivity).
  vm_compute. reflexivity.
Defined.

(** ** The two names of a semester *)

(** The short and the long name of a date name the same semester and,
    after it, the same year: [f] goes with [Fall], [s] with [Spring],
    [m1] with [Summer One] and [m2] with [Summer Two]. *)
Theorem semester_names_agree (today : date) (a : date_arg) :
  valid_date (arg_date a) = true ->
  exists letters name,
    In (letters, name)
      [("f", "Fall"); ("s", "Spring"); ("m1", "Summer One"); ("m2", "Summer Two")] /\
    get_semester_short_from_date today a
    = letters +:+ slice_from 2 (py_str_int (arg_year a)) /\
    get_semester_from_date today a = name +:+ " " +:+ py_str_int (arg_year a).
Proof.
  intros Hv. rewrite semester_letters_correct, semester_name_correct by assumption.
  unfold semester_letters, semester_name.
  destruct (from_through (arg_date a) 8 21 12 31);
    [eexists _, _; split; [left; reflexivity | split; reflexivity] |].
  destruct (from_through (arg_date a) 1 1 5 15);
    [eexists _, _; split; [right; left; reflexivity | split; reflexivity] |].
  destruct (from_through (arg_date a) 5 16 7 1);
    [eexists _, _; split; [right; right; left; reflexivity | split; reflexivity] |].
  eexists _, _; split; [right; right; right; left; reflexivity | split; reflexivity].
Qed.

Lemma semester_names_agree_witness :
  exists letters name,
    In (letters, name)
      [("f", "Fall"); ("s", "Spring"); ("m1", "Summer One"); ("m2", "Summer Two")] /\
    get_semester_short_from_date (MkDate 2020 1 1) (ADate (MkDate 2018 6 1))
    = letters +:+ "18" /\
    get_semester_from_date (MkDate 2020 1 1) (ADate (MkDate 2018 6 1))
    = name +:+ " 2018".
Proof.
  apply (semester_names_agree (MkDate 2020 1 1) (ADate (MkDate 2018 6 1))).
  reflexivity.
Defined.

(** ** Searches by datetime *)

Lemma days_before_year_bounds (y : Z) :
  1 <= y <= 9999 ->
  0 <= days_before_year y /\
  days_before_year y + 365 + (if is_leap y then 1 else 0) <= MAXORDINAL.
Proof.
  intros Hy.
  assert (Hall : forallb (fun i => let y := 1 + Z.of_nat i in
                    (0 <=? days_before_year y) &&
                    (days_before_year y + 365 + (if is_leap y then 1 else 0)
                     <=? MAXORDINAL))
                   (seq 0 (Z.to_nat 9999)) = true) by (vm_compute; reflexivity).
  rewrite forallb_forall in Hall.
  specialize (Hall (Z.to_nat (y - 1))). cbv zeta in Hall.
  replace (1 + Z.of_nat (Z.to_nat (y - 1))) with y in Hall by lia.
  assert (Hin : In (Z.to_nat (y - 1)) (seq 0 (Z.to_nat 9999))) by (apply in_seq; lia).
  apply Hall in Hin. apply andb_prop in Hin. destruct Hin as [H1 H2]. lia.
Qed.

Lemma day_of_year_bounds (d : date) :
  valid_date d = true ->
  1 <= days_before_month (year d) (month d) + day d
  <= 365 + (if is_leap (year d) then 1 else 0).
Proof.
  unfold valid_date. intros H.
  repeat (apply andb_prop in H; destruct H as [H ?]).
  destruct d as [y m dd]. cbn [year month day] in *.
  assert (Hd : 1 <= dd <= days_in_month y m) by lia.
  assert (Hm : m = 1 \/ m = 2 \/ m = 3 \/ m = 4 \/ m = 5 \/ m = 6 \/ m = 7 \/ m = 8 \/
               m = 9 \/ m = 10 \/ m = 11 \/ m = 12) by lia.
  clear -Hd Hm. revert Hd. unfold days_before_month, days_in_month.
  destruct Hm as [-> | [-> | [-> | [-> | [-> | [-> | [-> | [-> | [-> | [-> | [-> | ->]]]]]]]]]]];
    match goal with
    | |- context [ DAYS_BEFORE_MONTH ?k ] =>
        let v := eval vm_compute in (DAYS_BEFORE_MONTH k) in
        change (DAYS_BEFORE_MONTH k) with v
    end;
    cbn; destruct (is_leap y); cbn; lia.
Qed.

(** The ordinal of a date that [datetime.date] can hold. *)
Lemma toordinal_bounds (d : date) :
  valid_date d = true -> 1 <= toordinal d <= MAXORDINAL.
Proof.
  intros Hv. pose proof (day_of_year_bounds d Hv) as Hd.
  pose proof (valid_date_bounds d Hv) as (Hy & _).
  pose proof (days_before_year_bounds (year d) Hy) as Hb.
  unfold toordinal, ymd2ord. lia.
Qed.

Lemma datetime_add_zero (dt : datetime) :
  valid_datetime dt = true ->
  exists shifted,
    datetime_add_minutes dt 0 = Ok shifted /\
    hour (dt_time shifted) = hour (dt_time dt) /\
    minute (dt_time shifted) = minute (dt_time dt).
Proof.
  unfold valid_datetime, valid_time. intros H.
  apply andb_prop in H. destruct H as [Hd H].
  repeat (apply andb_prop in H; destruct H as [H ?]).
  pose proof (toordinal_bounds _ Hd) as Ho.
  unfold datetime_add_minutes. cbv zeta.
  set (t := dt_time dt) in *.
  set (secs := hour t * 3600 + minute t * 60 + second t + 0 * 60).
  assert (Hs : 0 <= secs < 86400) by (unfold secs; lia).
  rewrite (Z.div_small secs 86400 Hs), (Z.mod_small secs 86400 Hs), Z.add_0_r.
  destruct (Z.ltb_spec 0 (toordinal (dt_date dt))); [| lia].
  destruct (Z.leb_spec (toordinal (dt_date dt)) MAXORDINAL); [| lia].
  cbn [andb]. eexists. split; [reflexivity |]. cbn [dt_time hour minute].
  unfold secs. split; Z.div_mod_to_equations; lia.
Qed.

Lemma strftime_hour_minute (t t' : time) :
  hour t' = hour t -> minute t' = minute t -> strftime_IMp t' = strftime_IMp t.
Proof. intros Hh Hm. unfold strftime_IMp. rewrite Hh, Hm. reflexivity. Qed.

Lemma generate_window_query (E : Env) (a a' : Arrow) (n : Z) (shifted : datetime)
  (index : option string) (size : Z) :
  arrow_to E "America/New_York" a = Ok a' ->
  datetime_add_minutes (arrow_datetime a') n = Ok shifted ->
  CourseSearcher_generate_query E
    (CourseSearcher_init E {[ "datetime" := [VArrow a]; "timespan" := [VInt n] ]}
       index size)
  = Ok (window_query (isoweekday (dt_date (arrow_datetime a')) mod 7)
          (strftime_IMp (dt_time shifted))
          (strftime_IMp (dt_time (arrow_datetime a')))).
Proof.
  intros Ha Hs.
  set (rq := ({[ "datetime" := [VArrow a]; "timespan" := [VInt n] ]} : raw_query_t)).
  assert (Hl : rq !! "text" = None /\ rq !! "name" = None /\ rq !! "desc" = None /\
               rq !! "courseid" = None /\ rq !! "instructor" = None /\
               rq !! "building" = None /\ rq !! "room" = None /\
               rq !! "datetime" = Some [VArrow a] /\ rq !! "timespan" = Some [VInt n])
    by (repeat split; vm_compute; reflexivity).
  destruct Hl as (H1 & H2 & H3 & H4 & H5 & H6 & H7 & H8 & H9).
  unfold CourseSearcher_generate_query, CourseSearcher_init, text_clauses,
    courseid_clause, name_queries, nested_queries, first_of.
  cbn [raw_query _index]. fold rq.
  rewrite !has_key, H1, H2, H3, H4, H5, H6, H7, H8, H9.
  cbn [bind subscript0 py_to py_minutes]. rewrite Ha. cbn [bind]. rewrite Hs.
  reflexivity.
Qed.



(** ** Searches by instructor *)

Lemma generate_instructor_query (E : Env) (name : string) (fuzzy : bool)
  (index : option string) (size : Z) :
  let rq : raw_query_t := {[ "instructor" := [VStr name] ]} in
  CourseSearcher_generate_query E
    (CourseSearcher_init E
       (if fuzzy then <[ "instructor_fuzzy" := [VStr name] ]> rq else rq) index size)
  = Ok (instructor_query name fuzzy).
Proof.
  destruct (set_index_is_Some E index) as [i Hi].
  unfold CourseSearcher_generate_query, CourseSearcher_init, courseid_clause.
  cbn [raw_query _index]. rewrite Hi.
  destruct fuzzy; vm_compute; reflexivity.
Qed.

Lemma instructor_run (E : Env) (name : string) (fuzzy : bool)
  (index : option string) (size : Z) :
  get_courses_by_instructor E (VStr name) fuzzy index size
  = run_bind (fetch E (instructor_query name fuzzy) (CourseSearcher_set_index E index)
                size (Some "course") None)
      (fun response => run_ret (format_courses_output response)).
Proof.
  unfold get_courses_by_instructor, search_courses. cbv zeta.
  rewrite execute_run, (generate_instructor_query E name fuzzy index size).
  reflexivity.
Qed.



(** ** The minis of the year *)

(** [get_mini] by the calendar: mini 3 is January 1 to March 15, mini 4
    March 16 to May 15, mini 5 May 16 to July 1, mini 6 July 2 to August
    20, mini 1 August 21 to October 15 and mini 2 October 16 to December
    31. *)
Theorem get_mini_intervals (today : date) (a : date_arg) :
  valid_date (arg_date a) = true ->
  let d := arg_date a in
  get_mini today (Some a)
  = if from_through d 1 1 3 15 then 3
    else if from_through d 3 16 5 15 then 4
    else if from_through d 5 16 7 1 then 5
    else if from_through d 7 2 8 20 then 6
    else if from_through d 8 21 10 15 then 1
    else 2.
Proof.
  intros Hv. cbv zeta. apply valid_date_bounds in Hv.
  rewrite get_mini_arg. rewrite !from_through_code by lia.
  destruct (arg_date a) as [y m d]. cbn [year month day] in *.
  rewrite get_mini_code by lia. cbv zeta.
  zcases; try reflexivity; lia.
Qed.

Lemma get_mini_intervals_witness :
  get_mini (MkDate 2020 1 1) (Some (ADate (MkDate 2017 10 16))) = 2.
Proof.
  rewrite (get_mini_intervals (MkDate 2020 1 1) (ADate (MkDate 2017 10 16)) eq_refl).
  reflexivity.
Defined.

(** ** Worked examples *)

Example short_name_fall_2017 (today : date) :
  get_semester_short_from_date today (ADate (MkDate 2017 9 1)) = "f17".
Proof. reflexivity. Qed.

Example short_name_boundaries (today : date) :
  map (fun d => get_semester_short_from_date today (ADate d))
    [MkDate 2018 1 1; MkDate 2018 5 15; MkDate 2018 5 16; MkDate 2018 7 1;
     MkDate 2018 7 2; MkDate 2018 8 20; MkDate 2018 8 21; MkDate 2018 12 31]
  = ["s18"; "s18"; "m118"; "m118"; "m218"; "m218"; "f18"; "f18"].
Proof. reflexivity. Qed.

Example long_name_summer (today : date) :
  get_semester_from_date today (ADate (MkDate 2018 7 2)) = "Summer Two 2018".
Proof. reflexivity. Qed.

Example strftime_evening : strftime_IMp (MkTime 20 5 0 0) = "08:05PM".
Proof. reflexivity. Qed.

Example strftime_midnight : strftime_IMp (MkTime 0 0 0 0) = "12:00AM".
Proof. reflexivity. Qed.

Example add_across_new_year :
  datetime_add_minutes (DateTime (MkDate 2017 12 31) (MkTime 23 30 0 0)) 60
  = Ok (DateTime (MkDate 2018 1 1) (MkTime 0 30 0 0)).
Proof. reflexivity. Qed.

Example add_past_the_last_day :
  datetime_add_minutes (DateTime (MkDate 9999 12 31) (MkTime 23 30 0 0)) 60
  = Raise OverflowError.
Proof. reflexivity. Qed.

Example ordinals_round_trip :
  forallb (fun i => let n := 729000 + Z.of_nat i in
                    valid_date (ord2ymd n) && (toordinal (ord2ymd n) =? n))
    (seq 0 (Z.to_nat 9000)) = true.
Proof. vm_compute. reflexivity. Qed.

Example isoweekday_wednesday : isoweekday (MkDate 2026 11 4) = 3.
Proof. reflexivity. Qed.

Example isoweekday_sunday : isoweekday (MkDate 2017 9 3) = 7.
Proof. reflexivity. Qed.

Example courseid_forms :
  map match_courseid ["15-112"; "15112"; "15-1122"; "a5-112"]
  = [true; false; false; false].
Proof. reflexivity. Qed.

Example semester_forms :
  map match_semester ["f17"; "m217"; "current"; "f9"; "course-f17"]
  = [true; true; false; false; false].
Proof. reflexivity. Qed.
